(** * Sunrise-sunset sensor: a model of [src/main.ts] and its scheduling properties

    The class [SunriseSunsetSensor] keeps two timer handles and one listener
    handle and re-arms itself from [setupSensor].  The host (Node timers, the
    Scrypted position sensor, the clock) is modelled as part of one explicit
    state that every method takes and returns.

    Conventions
    - An instant is a JavaScript time value: an integral number of
      milliseconds, or NaN for an Invalid Date.  [Some z] is the number,
      [None] is NaN, so that [getTime() > now] is false on an Invalid Date.
    - [Date.now()] reads the field [clock]; synchronous code does not advance
      it.
    - [setTimeout cb delay] registers a timer.  [fire] is the instant the
      code asked for, [clock + delay]; [due] is the instant from which Node
      runs the callback: the same instant when the delay is between 1 and
      2^31-1 ms, and 1 ms after the call otherwise, as Node replaces any
      other delay by 1.
    - SunCalc and the calendar arithmetic of [Date] are external: they are
      section variables.
    - A [TypeError] that escapes a callback ends that callback; the event
      loop goes on from the state reached when it was thrown. *)

From Stdlib Require Import ZArith List Bool String Lia PeanoNat.
Import ListNotations.
Local Open Scope Z_scope.

(** ** Data *)

(** The two arrow functions handed to [setTimeout]:
    [() => this.trigger()] and [() => this.untrigger()]. *)
Inductive handler : Type := Trigger | Untrigger.

(** A pending Node timer: its handle, the instant the code asked for, the
    instant from which Node runs it, its callback. *)
Record timer : Type := mkTimer {
  tid : nat;
  fire : Z;
  due : Z;
  callback : handler
}.

(** Node's [TIMEOUT_MAX], 2^31-1 ms, and what [setTimeout] makes of its
    delay argument: [if (!(after >= 1 && after <= TIMEOUT_MAX)) after = 1]. *)
Definition TIMEOUT_MAX : Z := 2147483647.

Definition nodeDelay (delay : Z) : Z :=
  if (1 <=? delay) && (delay <=? TIMEOUT_MAX) then delay else 1.

(** [Date.getTime()]: a number of milliseconds, or NaN. *)
Definition instant : Type := option Z.

(** The four fields of [SunCalc.GetTimesResult] that the sensor reads. *)
Record GetTimesResult : Type := mkTimes {
  sunrise : instant;
  sunriseEnd : instant;
  sunsetStart : instant;
  sunset : instant
}.

(** Lines written by [this.console.log]; the argument is the date printed,
    [Date.now() + delay]. *)
Inductive logLine : Type :=
| NextSunriseStart (at_ : Z)
| NextSunriseEnd (at_ : Z)
| NestSunsetStart (at_ : Z)
| NextSunsetEnd (at_ : Z).

(** Outcome of a method body: it returns, or a [TypeError] escapes it. *)
Inductive completion : Type := Normal | Throw.

(** [a > now] on JavaScript numbers, [a] possibly NaN. *)
Definition laterThan (a : instant) (now : Z) : bool :=
  match a with
  | Some v => now <? v
  | None => false
  end.

(** Truthiness of a stored string: [undefined], [null] and the empty string
    are falsy. *)
Definition truthy (m : option string) : bool :=
  match m with
  | Some (String _ _) => true
  | _ => false
  end.

(** A sample calendar and solar table over UTC days, used to run the model on
    concrete inputs: midnight is the last multiple of a day, sunrise is from
    06:00 to 06:03 and sunset from 17:57 to 18:00. *)
Definition msPerDay : Z := 86400000.

Definition utcMidnight (now : Z) : Z := now - now mod msPerDay.

Definition utcNextDay (d : Z) : Z := d + msPerDay.

Definition equinoxTimes (d : Z) (lat lon : Z) : GetTimesResult :=
  {| sunrise := Some (d + 21600000);
     sunriseEnd := Some (d + 21780000);
     sunsetStart := Some (d + 64620000);
     sunset := Some (d + 64800000) |}.

(** A sample table for the end of a polar night: no solar event before the
    fourth day (Invalid Dates), a short day from then on. *)
Definition polarTimes (d : Z) (lat lon : Z) : GetTimesResult :=
  if d <? 3 * msPerDay then
    {| sunrise := None; sunriseEnd := None; sunsetStart := None; sunset := None |}
  else
    {| sunrise := Some (d + 41400000);
       sunriseEnd := Some (d + 42000000);
       sunsetStart := Some (d + 44400000);
       sunset := Some (d + 45000000) |}.

(** Closes a goal made of conjunctions and [Forall]s on a concrete state. *)
Ltac wf_concrete :=
  vm_compute; repeat split;
  repeat (apply Forall_cons || apply Forall_nil); auto; lia.

Section Sensor.

(** ** External collaborators *)

(** Coordinates ([number] in the source) and calendar days ([Date] objects
    set to a local midnight). *)
Variable coord : Type.
Variable day : Type.

(** [new Date(); setHours(0, 0, 0, 0)]. *)
Variable localMidnight : Z -> day.

(** [d.setDate(d.getDate() + 1)] on a copy. *)
Variable nextDay : day -> day.

(** [SunCalc.getTimes(date, latitude, longitude)]. *)
Variable getTimes : day -> coord -> coord -> GetTimesResult.

Record position : Type := mkPosition {
  latitude : coord;
  longitude : coord
}.

(** The linked device as the sensor sees it: its [position] property, which
    is [undefined] until the device has reported one. *)
Record device : Type := mkDevice {
  devicePosition : option position
}.

(** ** State *)

Record state : Type := mkState {
  (* host *)
  clock : Z;
  nextTimer : nat;
  timers : list timer;
  nextListener : nat;
  listeners : list nat;
  console : list logLine;
  (* storageSettings.values *)
  linkedPositionSensor : option device;
  mode : option string;
  (* fields of SunriseSunsetSensor *)
  positionListener : option nat;
  startTimeout : option nat;
  endTimeout : option nat;
  binaryState : option bool
}.

(** *** Host primitives *)

(** [clearTimeout(h)]: drops the pending timer with that handle;
    [clearTimeout(undefined)] and a handle that already fired do nothing. *)
Definition clearTimeout (h : option nat) (s : state) : state :=
  match h with
  | None => s
  | Some i =>
    mkState (clock s) (nextTimer s)
            (filter (fun t => negb (Nat.eqb (tid t) i)) (timers s))
            (nextListener s) (listeners s) (console s)
            (linkedPositionSensor s) (mode s)
            (positionListener s) (startTimeout s) (endTimeout s) (binaryState s)
  end.

(** [this.positionListener?.removeListener()]. *)
Definition removeListener (h : option nat) (s : state) : state :=
  match h with
  | None => s
  | Some l =>
    mkState (clock s) (nextTimer s) (timers s)
            (nextListener s)
            (filter (fun k => negb (Nat.eqb k l)) (listeners s))
            (console s)
            (linkedPositionSensor s) (mode s)
            (positionListener s) (startTimeout s) (endTimeout s) (binaryState s)
  end.

(** [setTimeout(cb, delay)]: a fresh handle, asked for at [clock + delay]
    and run by Node from [clock + nodeDelay delay]. *)
Definition setTimeout (cb : handler) (delay : Z) (s : state) : nat * state :=
  (nextTimer s,
   mkState (clock s) (S (nextTimer s))
           (timers s ++ [mkTimer (nextTimer s) (clock s + delay)
                                 (clock s + nodeDelay delay) cb])
           (nextListener s) (listeners s) (console s)
           (linkedPositionSensor s) (mode s)
           (positionListener s) (startTimeout s) (endTimeout s) (binaryState s)).

(** [positionSensor.listen(ScryptedInterface.PositionSensor, cb)]. *)
Definition listen (s : state) : nat * state :=
  (nextListener s,
   mkState (clock s) (nextTimer s) (timers s)
           (S (nextListener s)) (listeners s ++ [nextListener s]) (console s)
           (linkedPositionSensor s) (mode s)
           (positionListener s) (startTimeout s) (endTimeout s) (binaryState s)).

Definition consoleLog (l : logLine) (s : state) : state :=
  mkState (clock s) (nextTimer s) (timers s)
          (nextListener s) (listeners s) (console s ++ [l])
          (linkedPositionSensor s) (mode s)
          (positionListener s) (startTimeout s) (endTimeout s) (binaryState s).

(** *** Field assignments *)

Definition setPositionListener (h : nat) (s : state) : state :=
  mkState (clock s) (nextTimer s) (timers s)
          (nextListener s) (listeners s) (console s)
          (linkedPositionSensor s) (mode s)
          (Some h) (startTimeout s) (endTimeout s) (binaryState s).

Definition setStartTimeout (h : nat) (s : state) : state :=
  mkState (clock s) (nextTimer s) (timers s)
          (nextListener s) (listeners s) (console s)
          (linkedPositionSensor s) (mode s)
          (positionListener s) (Some h) (endTimeout s) (binaryState s).

Definition setEndTimeout (h : nat) (s : state) : state :=
  mkState (clock s) (nextTimer s) (timers s)
          (nextListener s) (listeners s) (console s)
          (linkedPositionSensor s) (mode s)
          (positionListener s) (startTimeout s) (Some h) (binaryState s).

Definition setBinaryState (b : bool) (s : state) : state :=
  mkState (clock s) (nextTimer s) (timers s)
          (nextListener s) (listeners s) (console s)
          (linkedPositionSensor s) (mode s)
          (positionListener s) (startTimeout s) (endTimeout s) (Some b).

(** ** Methods of [SunriseSunsetSensor] *)

(** [release()], lines 76-80. *)
Definition release (s : state) : state :=
  let s := removeListener (positionListener s) s in
  let s := clearTimeout (startTimeout s) s in
  clearTimeout (endTimeout s) s.

(** One [if (t.getTime() > now) { ... hasEvent = true; }] block of
    [doSunrise]/[doSunset]: [assign] stores the handle in its field. *)
Definition armIfFuture (t : instant) (now : Z) (line : Z -> logLine)
    (cb : handler) (assign : nat -> state -> state)
    (acc : bool * state) : bool * state :=
  match t with
  | Some v =>
    if now <? v then
      let delay := v - now in
      let s := consoleLog (line (clock (snd acc) + delay)) (snd acc) in
      let (h, s) := setTimeout cb delay s in
      (true, assign h s)
    else acc
  | None => acc
  end.

(** [doSunrise(times)], lines 82-98. *)
Definition doSunrise (times : GetTimesResult) (s : state) : bool * state :=
  let now := clock s in
  let acc := (false, s) in
  let acc := armIfFuture (sunrise times) now NextSunriseStart Trigger setStartTimeout acc in
  let acc := armIfFuture (sunriseEnd times) now NextSunriseEnd Untrigger setEndTimeout acc in
  acc.

(** [doSunset(times)], lines 100-116. *)
Definition doSunset (times : GetTimesResult) (s : state) : bool * state :=
  let now := clock s in
  let acc := (false, s) in
  let acc := armIfFuture (sunsetStart times) now NestSunsetStart Trigger setStartTimeout acc in
  let acc := armIfFuture (sunset times) now NextSunsetEnd Untrigger setEndTimeout acc in
  acc.

(** [f(..) || g(..)] on state-changing calls: [g] runs only when [f]
    returned false. *)
Definition orElse (f g : state -> bool * state) (s : state) : bool * state :=
  let (b, s') := f s in
  if b then (true, s') else g s'.

(** The statement at lines 69-73, with the value of the [||] chain. *)
Definition armWindow (m : string) (todayTimes tomorrowTimes dayAfterTomorrowTimes : GetTimesResult)
    (s : state) : bool * state :=
  if String.eqb m "sunrise" then
    orElse (orElse (doSunrise todayTimes) (doSunrise tomorrowTimes))
           (doSunrise dayAfterTomorrowTimes) s
  else
    orElse (orElse (doSunset todayTimes) (doSunset tomorrowTimes))
           (doSunrise dayAfterTomorrowTimes) s.

(** [setupSensor()], lines 46-74.  Reading [positionSensor.position.latitude]
    throws when the device has no position; the listener is registered by
    then. *)
Definition setupSensor (s : state) : completion * state :=
  let s := release s in
  match linkedPositionSensor s, mode s with
  | Some positionSensor, Some m =>
    if negb (truthy (Some m)) then (Normal, s)
    else
      let (l, s) := listen s in
      let s := setPositionListener l s in
      let todayMidnight := localMidnight (clock s) in
      let tomorrowMidnight := nextDay todayMidnight in
      let dayAfterTomorrowMidnight := nextDay tomorrowMidnight in
      match devicePosition positionSensor with
      | None => (Throw, s)
      | Some p =>
        let todayTimes := getTimes todayMidnight (latitude p) (longitude p) in
        let tomorrowTimes := getTimes tomorrowMidnight (latitude p) (longitude p) in
        let dayAfterTomorrowTimes :=
          getTimes dayAfterTomorrowMidnight (latitude p) (longitude p) in
        (Normal, snd (armWindow m todayTimes tomorrowTimes dayAfterTomorrowTimes s))
      end
  | _, _ => (Normal, s)
  end.

(** [trigger()], lines 118-120. *)
Definition trigger (s : state) : state := setBinaryState true s.

(** [untrigger()], lines 122-125. *)
Definition untrigger (s : state) : completion * state :=
  let s := setBinaryState false s in
  setupSensor s.

(** [putSetting(key, value)], lines 41-44: the storage write, then
    [setupSensor]; the two are taken as one run to completion.
    [linkedPositionSensor] is stored as a device id that [values] resolves
    to the device or to [undefined]. *)
Inductive setting : Type :=
| LinkedPositionSensor (d : option device)
| Mode (m : option string).

Definition storagePut (k : setting) (s : state) : state :=
  match k with
  | LinkedPositionSensor d =>
    mkState (clock s) (nextTimer s) (timers s)
            (nextListener s) (listeners s) (console s)
            d (mode s)
            (positionListener s) (startTimeout s) (endTimeout s) (binaryState s)
  | Mode m =>
    mkState (clock s) (nextTimer s) (timers s)
            (nextListener s) (listeners s) (console s)
            (linkedPositionSensor s) m
            (positionListener s) (startTimeout s) (endTimeout s) (binaryState s)
  end.

Definition putSetting (k : setting) (s : state) : completion * state :=
  setupSensor (storagePut k s).

(** The constructor, lines 32-35: the three handle fields are [undefined],
    the settings and the binary state are what the host has stored. *)
Definition newSensor (now : Z) (d : option device) (m : option string)
    (b : option bool) : completion * state :=
  setupSensor (mkState now 0 [] 0 [] [] d m None None None b).

(** ** The event loop *)

(** What the host can do to a sensor between two runs to completion. *)
Inductive event : Type :=
| Tick (dt : Z)
| TimerDue (h : nat)
| PositionChanged (p : option position)
| PutSetting (k : setting).

Definition advance (dt : Z) (s : state) : state :=
  mkState (clock s + dt) (nextTimer s) (timers s)
          (nextListener s) (listeners s) (console s)
          (linkedPositionSensor s) (mode s)
          (positionListener s) (startTimeout s) (endTimeout s) (binaryState s).

Definition findTimer (h : nat) (ts : list timer) : option timer :=
  find (fun t => Nat.eqb (tid t) h) ts.

(** Node calls the callback of a timer once it is due and forgets it. *)
Definition runCallback (cb : handler) (s : state) : state :=
  match cb with
  | Trigger => trigger s
  | Untrigger => snd (untrigger s)
  end.

(** The position sensor calls every registered listener; each of them is
    [() => this.setupSensor()]. *)
Definition notifyListeners (s : state) : state :=
  fold_left (fun acc (_ : nat) => snd (setupSensor acc)) (listeners s) s.

Definition step (e : event) (s : state) : option state :=
  match e with
  | Tick dt => if 0 <=? dt then Some (advance dt s) else None
  | TimerDue h =>
    match findTimer h (timers s) with
    | Some t =>
      if due t <=? clock s
      then Some (runCallback (callback t) (clearTimeout (Some h) s))
      else None
    | None => None
    end
  | PositionChanged p =>
    match linkedPositionSensor s with
    | Some _ =>
      (* the linked device now reports [p]; then it calls its listeners *)
      Some (notifyListeners (storagePut (LinkedPositionSensor (Some (mkDevice p))) s))
    | None => None
    end
  | PutSetting k => Some (snd (putSetting k s))
  end.

Fixpoint run (es : list event) (s : state) : option state :=
  match es with
  | [] => Some s
  | e :: es' =>
    match step e s with
    | Some s' => run es' s'
    | None => None
    end
  end.

(** ** Invariants and observations *)

(** Every pending timer is the one a handle field refers to, handles are
    below the host's counter, and the only listener registered is the one
    in [positionListener]. *)
Definition timersOwned (s : state) : Prop :=
  Forall (fun t => startTimeout s = Some (tid t) \/ endTimeout s = Some (tid t)) (timers s).

Definition timersFresh (s : state) : Prop :=
  Forall (fun t => (tid t < nextTimer s)%nat) (timers s).

Definition listenersOwned (s : state) : Prop :=
  Forall (fun l => positionListener s = Some l) (listeners s).

Definition wf (s : state) : Prop :=
  timersOwned s /\ timersFresh s /\ listenersOwned s.

(** The instants at which callbacks are pending, with their callbacks. *)
Definition schedule (s : state) : list (Z * handler) :=
  map (fun t => (fire t, callback t)) (timers s).

(** What one [if] block of an arming routine adds to the schedule. *)
Definition armed (t : instant) (now : Z) (cb : handler) : list (Z * handler) :=
  match t with
  | Some v => if now <? v then [(v, cb)] else []
  | None => []
  end.

(** The configuration is incomplete: line 49 returns. *)
Definition unconfigured (s : state) : bool :=
  match linkedPositionSensor s with
  | None => true
  | Some _ => negb (truthy (mode s))
  end.

(** Nothing is armed and nothing is subscribed. *)
Definition disarmed (s : state) : Prop :=
  timers s = [] /\ listeners s = [].

(** Both arming routines are the same two [if] blocks over a start and an
    end instant. *)
Definition armPair (start end_ : instant) (l1 l2 : Z -> logLine) (s : state)
    : bool * state :=
  armIfFuture end_ (clock s) l2 Untrigger setEndTimeout
    (armIfFuture start (clock s) l1 Trigger setStartTimeout (false, s)).

(** Line 54: the listener is registered and its handle stored. *)
Definition subscribed (s : state) : state :=
  setPositionListener (fst (listen s)) (snd (listen s)).

(** The routine that lines 70 and 72 call on day [i] of the window
    (0 today, 1 tomorrow, 2 the day after). *)
Definition attempt (m : string) (i : nat) : GetTimesResult -> state -> bool * state :=
  if String.eqb m "sunrise" then doSunrise
  else match i with
       | 2%nat => doSunrise
       | _ => doSunset
       end.





(** The pair of instants that the routine called on day [i] reads. *)
Definition examined (m : string) (i : nat) (t : GetTimesResult) : instant * instant :=
  if String.eqb m "sunrise" then (sunrise t, sunriseEnd t)
  else match i with
       | 2%nat => (sunrise t, sunriseEnd t)
       | _ => (sunsetStart t, sunset t)
       end.

(** Day [i] yields a future event: one of the instants read on that day is
    strictly after [now]. *)
Definition dayYields (m : string) (i : nat) (t : GetTimesResult) (now : Z) : bool :=
  laterThan (fst (examined m i t)) now || laterThan (snd (examined m i t)) now.

(** Every pending timer was created at or after handle [n]. *)
Definition allNew (n : nat) (s : state) : Prop :=
  (n <= nextTimer s)%nat /\ Forall (fun t => (n <= tid t)%nat) (timers s).

(** The states a sensor can be in: built by the constructor, then driven by
    the event loop. *)
Definition reachable (s : state) : Prop :=
  exists now d m b es, run es (snd (newSensor now d m b)) = Some s.

(** ** The plugin *)

(** [ScryptedInterface] and [ScryptedDeviceType] values the plugin names. *)
Inductive scryptedInterface : Type := BinarySensor | Settings | PositionSensor.

Inductive scryptedDeviceType : Type := Sensor.

(** The argument of [deviceManager.onDeviceDiscovered]. *)
Record discoveredDevice : Type := mkDiscovered {
  nativeId : string;
  name : string;
  interfaces : list scryptedInterface;
  type : scryptedDeviceType
}.

(** What the host has stored for a native id when a sensor is constructed:
    the two settings and the persisted binary state. *)
Record stored : Type := mkStored {
  storedSensor : option device;
  storedMode : option string;
  storedBinaryState : option bool
}.

(** A JavaScript [Map] with string keys: entries in insertion order, at most
    one per key. *)
Fixpoint mapGet {V : Type} (k : string) (m : list (string * V)) : option V :=
  match m with
  | [] => None
  | (k', v) :: m' => if String.eqb k' k then Some v else mapGet k m'
  end.

Definition mapHas {V : Type} (k : string) (m : list (string * V)) : bool :=
  match mapGet k m with
  | Some _ => true
  | None => false
  end.

(** [m.set(k, v)]: replaces the value of an existing key in place, appends a
    new key. *)
Fixpoint mapSet {V : Type} (k : string) (v : V) (m : list (string * V))
    : list (string * V) :=
  match m with
  | [] => [(k, v)]
  | (k', v') :: m' =>
    if String.eqb k' k then (k, v) :: m' else (k', v') :: mapSet k v m'
  end.

(** [m.delete(k)]. *)
Fixpoint mapDelete {V : Type} (k : string) (m : list (string * V))
    : list (string * V) :=
  match m with
  | [] => []
  | (k', v') :: m' =>
    if String.eqb k' k then m' else (k', v') :: mapDelete k m'
  end.

(** The plugin and what it has built.  [objects] holds every
    [SunriseSunsetSensor] constructed so far, each with the timers and the
    listener it has created, and is addressed by position; [devices] is the
    field [this.devices], from native id to sensor object; [discovered] is
    what [deviceManager.onDeviceDiscovered] has been told; [owners] gives
    the native id each object was constructed with ([this.nativeId]), the
    newest object first. *)
Record plugin : Type := mkPlugin {
  objects : list state;
  devices : list (string * nat);
  discovered : list discoveredDevice;
  owners : list (nat * string)
}.

(** The constructor of [SunriseSunsetPlugin], lines 131-134. *)
Definition newPlugin : plugin := mkPlugin [] [] [] [].

(** The native id of the object at address [r]. *)
Fixpoint ownerOf (r : nat) (ws : list (nat * string)) : option string :=
  match ws with
  | [] => None
  | (r', w) :: ws' => if Nat.eqb r' r then Some w else ownerOf r ws'
  end.

Definition ownedBy (id : string) (r : nat) (ws : list (nat * string)) : bool :=
  match ownerOf r ws with
  | Some w => String.eqb w id
  | None => false
  end.

(** The two settings ([this.storageSettings.values], lines 13-26) and the
    binary state ([this.binaryState]) are not kept in the sensor object: the
    host keeps them under the native id, so all the objects constructed with
    one native id read and write the same three values.  [shared s] is what
    the object [s] sees of them, [withShared st s] is [s] seeing [st]. *)
Definition shared (s : state) : stored :=
  mkStored (linkedPositionSensor s) (mode s) (binaryState s).

Definition withShared (st : stored) (s : state) : state :=
  mkState (clock s) (nextTimer s) (timers s)
          (nextListener s) (listeners s) (console s)
          (storedSensor st) (storedMode st)
          (positionListener s) (startTimeout s) (endTimeout s)
          (storedBinaryState st).

(** Every object of [os] (addresses from [i] on) that was constructed with
    the native id [id] now sees [st]. *)
Fixpoint shareFrom (i : nat) (id : string) (st : stored) (ws : list (nat * string))
    (os : list state) : list state :=
  match os with
  | [] => []
  | o :: os' =>
    (if ownedBy id i ws then withShared st o else o) :: shareFrom (S i) id st ws os'
  end.

(** What the objects constructed with [id] see, if there is one. *)
Fixpoint firstOwned (i : nat) (id : string) (ws : list (nat * string))
    (os : list state) : option stored :=
  match os with
  | [] => None
  | o :: os' => if ownedBy id i ws then Some (shared o) else firstOwned (S i) id ws os'
  end.

(** [getDevice(nativeId)], lines 161-168.  The values of the map are
    objects, so [has] holds exactly when [get] returns one.  [now] and [st]
    are the clock and the host's storage for [nativeId] at the time of the
    call; the constructor of the sensor reads them.  The constructor runs
    [setupSensor]: when that throws, [new] throws, line 166 is not reached
    and the promise is rejected ([None]); the object stays alive through the
    listener it has registered. *)
Definition getDevice (now : Z) (st : stored) (id : string) (p : plugin)
    : option nat * plugin :=
  match mapGet id (devices p) with
  | Some r => (Some r, p)
  | None =>
    let (c, device) :=
      newSensor now (storedSensor st) (storedMode st) (storedBinaryState st) in
    let r := List.length (objects p) in
    match c with
    | Normal =>
      (Some r, mkPlugin (objects p ++ [device]) (mapSet id r (devices p)) (discovered p)
                        ((r, id) :: owners p))
    | Throw =>
      (None, mkPlugin (objects p ++ [device]) (devices p) (discovered p)
                      ((r, id) :: owners p))
    end
  end.

(** [releaseDevice(id, nativeId)], lines 170-172. *)
Definition releaseDevice (id nid : string) (p : plugin) : plugin :=
  mkPlugin (objects p) (mapDelete nid (devices p)) (discovered p) (owners p).

(** [settings.name?.toString() || "New Sunrise-Sunset Sensor"], line 147;
    [n] is the string that [settings.name?.toString()] gives, if any. *)
Definition deviceName (n : option string) : string :=
  match n with
  | Some (String a r) => String a r
  | _ => "New Sunrise-Sunset Sensor"%string
  end.

(** [createDevice(settings)], lines 145-159; [uuid] is what
    [crypto.randomUUID()] returns.  The two awaited calls are taken as one
    run to completion; a rejected [getDevice] rejects [createDevice]. *)
Definition createDevice (now : Z) (st : stored) (uuid : string)
    (settingsName : option string) (p : plugin) : option string * plugin :=
  let name := deviceName settingsName in
  let p := mkPlugin (objects p) (devices p)
             (discovered p ++ [mkDiscovered uuid name [BinarySensor; Settings] Sensor])
             (owners p) in
  match getDevice now st uuid p with
  | (Some _, p) => (Some uuid, p)
  | (None, p) => (None, p)
  end.

(** What can happen to a plugin: its three methods are called, or the event
    loop reaches one of the sensors it has constructed.  [st] is the host's
    storage for the native id when no sensor has been constructed with it
    yet; otherwise the constructor reads what those sensors see.  After an
    event of a sensor, the sensors constructed with the same native id see
    the settings and the binary state it has left.  A position report calls
    the listener of each subscribed sensor: each call is an event.  Each
    object carries the clock of its own last event. *)
Inductive pluginEvent : Type :=
| GetDevice (now : Z) (st : stored) (id : string)
| ReleaseDevice (id nid : string)
| CreateDevice (now : Z) (st : stored) (uuid : string) (settingsName : option string)
| SensorEvent (r : nat) (e : event).

(** Replaces the object at address [r]. *)
Fixpoint setObject (r : nat) (s : state) (os : list state) : list state :=
  match os, r with
  | [], _ => []
  | _ :: os', O => s :: os'
  | o :: os', S r' => o :: setObject r' s os'
  end.

Definition storageFor (id : string) (st : stored) (p : plugin) : stored :=
  match firstOwned 0 id (owners p) (objects p) with
  | Some seen => seen
  | None => st
  end.

(** The objects after the object at [r] has been left as [s']. *)
Definition afterEvent (r : nat) (s' : state) (p : plugin) : list state :=
  match ownerOf r (owners p) with
  | Some id => shareFrom 0 id (shared s') (owners p) (setObject r s' (objects p))
  | None => setObject r s' (objects p)
  end.

Definition pluginStep (e : pluginEvent) (p : plugin) : option plugin :=
  match e with
  | GetDevice now st id => Some (snd (getDevice now (storageFor id st p) id p))
  | ReleaseDevice id nid => Some (releaseDevice id nid p)
  | CreateDevice now st uuid n =>
    Some (snd (createDevice now (storageFor uuid st p) uuid n p))
  | SensorEvent r e =>
    match nth_error (objects p) r with
    | Some s =>
      match step e s with
      | Some s' =>
        Some (mkPlugin (afterEvent r s' p) (devices p) (discovered p) (owners p))
      | None => None
      end
    | None => None
    end
  end.

Fixpoint pluginRun (es : list pluginEvent) (p : plugin) : option plugin :=
  match es with
  | [] => Some p
  | e :: es' =>
    match pluginStep e p with
    | Some p' => pluginRun es' p'
    | None => None
    end
  end.

(** The sensor that [getDevice] returned, as it is now. *)
Definition sensorAt (r : nat) (p : plugin) : option state :=
  nth_error (objects p) r.


(** ** Observations used by the further properties *)

Definition isTrigger (t : timer) : bool :=
  match callback t with
  | Trigger => true
  | Untrigger => false
  end.

(** The pending start timers and the pending end timers. *)
Definition startTimers (s : state) : list timer := filter isTrigger (timers s).

Definition endTimers (s : state) : list timer :=
  filter (fun t => negb (isTrigger t)) (timers s).

(** A pending start timer is the one [startTimeout] names and a pending end
    timer the one [endTimeout] names. *)
Definition rolesKept (s : state) : Prop :=
  Forall (fun t => match callback t with
                   | Trigger => startTimeout s = Some (tid t)
                   | Untrigger => endTimeout s = Some (tid t)
                   end) (timers s).

(** What holds of a sensor between two events. *)
Definition sensorInvariant (s : state) : Prop :=
  wf s /\
  rolesKept s /\
  (List.length (startTimers s) <= 1)%nat /\
  (List.length (endTimers s) <= 1)%nat /\
  List.length (listeners s) = (if unconfigured s then 0%nat else 1%nat) /\
  (unconfigured s = true -> timers s = []).

(** The linked device reports the position [p]. *)
Definition moved (p : option position) (s : state) : state :=
  storagePut (LinkedPositionSensor (Some (mkDevice p))) s.


(** The pair of day [i], cut down to its instants after [now]. *)
Definition futurePair (m : string) (i : nat) (t : GetTimesResult) (now : Z)
    : list (Z * handler) :=
  armed (fst (examined m i t)) now Trigger ++ armed (snd (examined m i t)) now Untrigger.

(** The future instants of the first day of the window that has any. *)
Definition firstFuturePair (m : string) (now : Z) (t0 t1 t2 : GetTimesResult)
    : list (Z * handler) :=
  if dayYields m 0 t0 now then futurePair m 0 t0 now
  else if dayYields m 1 t1 now then futurePair m 1 t1 now
  else futurePair m 2 t2 now.

(** The states a plugin can be in. *)
Definition pluginReachable (p : plugin) : Prop :=
  exists es, pluginRun es newPlugin = Some p.

(** What holds of a sensor object whatever the settings it sees: these are
    the parts of [sensorInvariant] that do not mention the configuration. *)
Definition objectInvariant (s : state) : Prop :=
  wf s /\
  rolesKept s /\
  (List.length (startTimers s) <= 1)%nat /\
  (List.length (endTimers s) <= 1)%nat /\
  (List.length (listeners s) <= 1)%nat.

(** The objects constructed with one native id see the same settings and
    the same binary state. *)
Definition siblingsAgree (p : plugin) : Prop :=
  forall r r' s s' id,
    sensorAt r p = Some s -> sensorAt r' p = Some s' ->
    ownerOf r (owners p) = Some id -> ownerOf r' (owners p) = Some id ->
    shared s = shared s'.

(** [st] is what the objects constructed with [id] see. *)
Definition consistent (st : stored) (id : string) (p : plugin) : Prop :=
  forall r s, sensorAt r p = Some s -> ownerOf r (owners p) = Some id -> shared s = st.

(** What holds of a plugin between two events: every native id has one
    entry, every entry names a sensor that exists and was constructed with
    that id, no two entries name the same sensor, every sensor ever
    constructed keeps [objectInvariant], and siblings agree. *)
Definition pluginInvariant (p : plugin) : Prop :=
  NoDup (map fst (devices p)) /\
  NoDup (map snd (devices p)) /\
  Forall (fun kv => (snd kv < List.length (objects p))%nat) (devices p) /\
  Forall objectInvariant (objects p) /\
  siblingsAgree p /\
  (forall id r, mapGet id (devices p) = Some r -> ownerOf r (owners p) = Some id).


(** Runs the two [if] blocks of [armPair] symbolically: one case for each
    outcome of the two comparisons. *)
Ltac run_armPair a b s :=
  unfold armPair, armIfFuture, laterThan, armed;
  destruct s as [c nt ts nl ls co d m pl st en bs]; cbn [clock snd fst];
  destruct a as [a|]; [destruct (Z.ltb c a) eqn:?|];
  (destruct b as [b|]; [destruct (Z.ltb c b) eqn:?|]);
  cbn -[nodeDelay].

(** ** Basic facts about the host primitives *)

Lemma filter_owned_nil (a b : option nat) (ts : list timer) :
  Forall (fun t => a = Some (tid t) \/ b = Some (tid t)) ts ->
  match a, b with
  | Some i, Some j =>
    filter (fun t => negb (Nat.eqb (tid t) j))
           (filter (fun t => negb (Nat.eqb (tid t) i)) ts) = []
  | Some i, None => filter (fun t => negb (Nat.eqb (tid t) i)) ts = []
  | None, Some j => filter (fun t => negb (Nat.eqb (tid t) j)) ts = []
  | None, None => ts = []
  end.
Proof.
  induction 1 as [|t ts Ht _ IH].
  - destruct a, b; reflexivity.
  - destruct a as [i|], b as [j|]; simpl.
    + destruct Ht as [Ht|Ht]; inversion Ht; subst.
      * rewrite Nat.eqb_refl; simpl. exact IH.
      * destruct (Nat.eqb (tid t) i); simpl; [exact IH|].
        rewrite Nat.eqb_refl; simpl. exact IH.
    + destruct Ht as [Ht|Ht]; inversion Ht; subst.
      rewrite Nat.eqb_refl; simpl. exact IH.
    + destruct Ht as [Ht|Ht]; inversion Ht; subst.
      rewrite Nat.eqb_refl; simpl. exact IH.
    + destruct Ht as [Ht|Ht]; inversion Ht.
Qed.

Lemma filter_listener_nil (a : option nat) (ls : list nat) :
  Forall (fun l => a = Some l) ls ->
  match a with
  | Some i => filter (fun k => negb (Nat.eqb k i)) ls = []
  | None => ls = []
  end.
Proof.
  induction 1 as [|l ls Hl _ IH].
  - destruct a; reflexivity.
  - destruct a as [i|]; inversion Hl; subst. simpl.
    rewrite Nat.eqb_refl; simpl. exact IH.
Qed.

(** [release] touches nothing but the two host tables. *)
Lemma release_frame (s : state) :
  clock (release s) = clock s /\
  nextTimer (release s) = nextTimer s /\
  nextListener (release s) = nextListener s /\
  console (release s) = console s /\
  linkedPositionSensor (release s) = linkedPositionSensor s /\
  mode (release s) = mode s /\
  positionListener (release s) = positionListener s /\
  startTimeout (release s) = startTimeout s /\
  endTimeout (release s) = endTimeout s /\
  binaryState (release s) = binaryState s.
Proof.
  destruct s as [c nt ts nl ls co d m [pl|] [st|] [en|] b]; cbn; repeat split.
Qed.

(** Subscribing adds one listener and stores its handle. *)
Lemma subscribed_frame (s : state) :
  let s' := subscribed s in
  clock s' = clock s /\ nextTimer s' = nextTimer s /\ timers s' = timers s /\
  listeners s' = listeners s ++ [nextListener s] /\
  positionListener s' = Some (nextListener s) /\
  linkedPositionSensor s' = linkedPositionSensor s /\ mode s' = mode s /\
  startTimeout s' = startTimeout s /\ endTimeout s' = endTimeout s /\
  binaryState s' = binaryState s.
Proof. destruct s; cbn; repeat split. Qed.

(** In a well-formed state [release] leaves no timer and no listener. *)
Lemma release_disarms (s : state) : wf s -> disarmed (release s).
Proof.
  intros (Ho & _ & Hl). unfold disarmed, timersOwned, listenersOwned in *.
  apply filter_owned_nil in Ho. apply filter_listener_nil in Hl.
  destruct s as [c nt ts nl ls co d m [pl|] [st|] [en|] b]; cbn in *; auto.
Qed.

Lemma release_timers_incl (s : state) (t : timer) :
  In t (timers (release s)) -> In t (timers s).
Proof.
  destruct s as [c nt ts nl ls co d m [pl|] [st|] [en|] b]; cbn;
    rewrite ?filter_In; tauto.
Qed.

Lemma release_listeners_incl (s : state) (l : nat) :
  In l (listeners (release s)) -> In l (listeners s).
Proof.
  destruct s as [c nt ts nl ls co d m [pl|] [st|] [en|] b]; cbn;
    rewrite ?filter_In; tauto.
Qed.

(** ** The arming routines *)

Lemma doSunrise_armPair (t : GetTimesResult) (s : state) :
  doSunrise t s = armPair (sunrise t) (sunriseEnd t) NextSunriseStart NextSunriseEnd s.
Proof. reflexivity. Qed.

Lemma doSunset_armPair (t : GetTimesResult) (s : state) :
  doSunset t s = armPair (sunsetStart t) (sunset t) NestSunsetStart NextSunsetEnd s.
Proof. reflexivity. Qed.

(** An arming routine returns true exactly when one of its two instants is
    strictly after [now]. *)
Lemma armPair_yields a b l1 l2 s :
  fst (armPair a b l1 l2 s) = laterThan a (clock s) || laterThan b (clock s).
Proof. run_armPair a b s; reflexivity. Qed.

(** When it returns false it has changed nothing. *)
Lemma armPair_idle a b l1 l2 s :
  fst (armPair a b l1 l2 s) = false -> snd (armPair a b l1 l2 s) = s.
Proof. run_armPair a b s; intros; try discriminate; reflexivity. Qed.

(** The timers it adds are due at the instants themselves. *)
Lemma armPair_schedule a b l1 l2 s :
  schedule (snd (armPair a b l1 l2 s)) =
  schedule s ++ armed a (clock s) Trigger ++ armed b (clock s) Untrigger.
Proof.
  unfold schedule.
  run_armPair a b s; rewrite ?map_app, <- ?app_assoc, ?app_nil_r; cbn;
    repeat f_equal; lia.
Qed.

(** It only touches the timer table, the two handle fields and the console. *)
Lemma armPair_frame a b l1 l2 s :
  let s' := snd (armPair a b l1 l2 s) in
  clock s' = clock s /\
  nextListener s' = nextListener s /\
  listeners s' = listeners s /\
  linkedPositionSensor s' = linkedPositionSensor s /\
  mode s' = mode s /\
  positionListener s' = positionListener s /\
  binaryState s' = binaryState s.
Proof. run_armPair a b s; repeat split. Qed.

(** Started from an empty timer table it leaves a well-owned one. *)
Lemma armPair_owned a b l1 l2 s :
  timers s = [] -> timersOwned (snd (armPair a b l1 l2 s)).
Proof.
  unfold timersOwned.
  run_armPair a b s; intros ->; cbn;
    repeat (apply Forall_cons || apply Forall_nil); cbn; auto.
Qed.

(** Handles stay below the counter, and the counter never decreases. *)
Lemma armPair_fresh a b l1 l2 s :
  timersFresh s -> timersFresh (snd (armPair a b l1 l2 s)).
Proof.
  unfold timersFresh.
  run_armPair a b s; intros H; rewrite ?Forall_app; repeat split;
    try (eapply Forall_impl; [|exact H]; cbn; intros; lia);
    repeat (apply Forall_cons || apply Forall_nil); cbn; lia.
Qed.

Lemma armPair_counter a b l1 l2 s :
  (nextTimer s <= nextTimer (snd (armPair a b l1 l2 s)))%nat.
Proof. run_armPair a b s; lia. Qed.

(** Every timer it adds has a new handle and is due strictly after [now]. *)
Lemma armPair_new a b l1 l2 s t :
  In t (timers (snd (armPair a b l1 l2 s))) ->
  In t (timers s) \/ ((nextTimer s <= tid t)%nat /\ clock s < fire t).
Proof.
  run_armPair a b s; rewrite ?in_app_iff; cbn; intros H;
    repeat match goal with
    | H : _ \/ _ |- _ => destruct H
    | H : False |- _ => destruct H
    end; subst; cbn; auto; right; split; lia.
Qed.

Lemma nodeDelay_pos (d : Z) : 1 <= nodeDelay d.
Proof.
  unfold nodeDelay.
  destruct (Z.leb_spec 1 d); cbn; [destruct (Z.leb_spec d TIMEOUT_MAX)|]; lia.
Qed.


(** Node runs every timer it adds strictly after [now], at the instant asked
    for or, past the limit, 1 ms after the call. *)
Lemma armPair_due a b l1 l2 s t :
  In t (timers (snd (armPair a b l1 l2 s))) ->
  In t (timers s) \/
  (clock s < due t /\ due t = clock s + nodeDelay (fire t - clock s)).
Proof.
  run_armPair a b s; rewrite ?in_app_iff; cbn -[nodeDelay]; intros H;
    repeat match goal with
    | H : _ \/ _ |- _ => destruct H
    | H : False |- _ => destruct H
    end; subst; cbn -[nodeDelay]; auto; right;
    match goal with
    | |- context [nodeDelay ?d] => pose proof (nodeDelay_pos d)
    end; (split; [lia|repeat f_equal; lia]).
Qed.

(** It arms a timer exactly when it returns true. *)
Lemma armPair_armed_iff a b l1 l2 s :
  fst (armPair a b l1 l2 s) = true <->
  (List.length (timers s) < List.length (timers (snd (armPair a b l1 l2 s))))%nat.
Proof.
  run_armPair a b s; rewrite ?length_app; cbn; split; intros; try lia;
    try reflexivity; try discriminate.
Qed.

(** ** The window *)

Lemma orElse_first (f g : state -> bool * state) (s : state) :
  fst (f s) = true -> orElse f g s = f s.
Proof. unfold orElse. destruct (f s) as [b s']; cbn. intros ->. reflexivity. Qed.

Lemma orElse_second (f g : state -> bool * state) (s : state) :
  fst (f s) = false -> snd (f s) = s -> orElse f g s = g s.
Proof.
  unfold orElse. destruct (f s) as [b s']; cbn. intros -> ->. reflexivity.
Qed.

Lemma armWindow_attempts m t0 t1 t2 s :
  armWindow m t0 t1 t2 s =
  orElse (orElse (attempt m 0 t0) (attempt m 1 t1)) (attempt m 2 t2) s.
Proof. unfold armWindow, attempt. destruct (String.eqb m "sunrise"); reflexivity. Qed.

Lemma attempt_shape m i t :
  exists l1 l2, forall s,
    attempt m i t s = armPair (fst (examined m i t)) (snd (examined m i t)) l1 l2 s.
Proof.
  unfold attempt, examined.
  destruct (String.eqb m "sunrise"); [|destruct i as [|[|[|i]]]]; cbn [fst snd];
    eauto using doSunrise_armPair, doSunset_armPair.
Qed.

Lemma attempt_armPair m i t s :
  exists a b l1 l2, attempt m i t s = armPair a b l1 l2 s.
Proof.
  destruct (attempt_shape m i t) as (l1 & l2 & H). rewrite H. eauto.
Qed.

Lemma attempt_yields m i t s :
  fst (attempt m i t s) = dayYields m i t (clock s).
Proof.
  destruct (attempt_shape m i t) as (l1 & l2 & H). rewrite H.
  apply armPair_yields.
Qed.

Lemma attempt_idle m i t s :
  fst (attempt m i t s) = false -> snd (attempt m i t s) = s.
Proof.
  destruct (attempt_armPair m i t s) as (a & b & l1 & l2 & ->).
  apply armPair_idle.
Qed.

Lemma armWindow_today m t0 t1 t2 s :
  fst (attempt m 0 t0 s) = true -> armWindow m t0 t1 t2 s = attempt m 0 t0 s.
Proof.
  intros H. rewrite armWindow_attempts.
  assert (E : orElse (attempt m 0 t0) (attempt m 1 t1) s = attempt m 0 t0 s)
    by (apply orElse_first; exact H).
  unfold orElse at 1. rewrite E.
  destruct (attempt m 0 t0 s) as [b s']; cbn in *; subst; reflexivity.
Qed.

Lemma armWindow_tomorrow m t0 t1 t2 s :
  fst (attempt m 0 t0 s) = false -> fst (attempt m 1 t1 s) = true ->
  armWindow m t0 t1 t2 s = attempt m 1 t1 s.
Proof.
  intros H0 H1. rewrite armWindow_attempts.
  assert (E : orElse (attempt m 0 t0) (attempt m 1 t1) s = attempt m 1 t1 s)
    by (apply orElse_second; [exact H0 | apply attempt_idle; exact H0]).
  unfold orElse at 1. rewrite E.
  destruct (attempt m 1 t1 s) as [b s']; cbn in *; subst; reflexivity.
Qed.

Lemma armWindow_dayAfter m t0 t1 t2 s :
  fst (attempt m 0 t0 s) = false -> fst (attempt m 1 t1 s) = false ->
  armWindow m t0 t1 t2 s = attempt m 2 t2 s.
Proof.
  intros H0 H1. rewrite armWindow_attempts.
  assert (E : orElse (attempt m 0 t0) (attempt m 1 t1) s = attempt m 1 t1 s)
    by (apply orElse_second; [exact H0 | apply attempt_idle; exact H0]).
  unfold orElse at 1. rewrite E.
  pose proof (attempt_idle m 1 t1 s H1) as E1.
  destruct (attempt m 1 t1 s) as [b s']; cbn in *; subst; reflexivity.
Qed.

(** Whatever the window, the statement at lines 69-73 amounts to one run of
    the two [if] blocks on some pair of instants. *)
Lemma armWindow_armPair m t0 t1 t2 s :
  exists a b l1 l2, armWindow m t0 t1 t2 s = armPair a b l1 l2 s.
Proof.
  destruct (fst (attempt m 0 t0 s)) eqn:H0.
  - rewrite armWindow_today by exact H0. apply attempt_armPair.
  - destruct (fst (attempt m 1 t1 s)) eqn:H1.
    + rewrite armWindow_tomorrow by assumption. apply attempt_armPair.
    + rewrite armWindow_dayAfter by assumption. apply attempt_armPair.
Qed.

(** In any mode other than "sunrise", when the first two days yield nothing
    the third day is armed by [doSunrise]. *)
Lemma armWindow_third_day_not_sunrise m t0 t1 t2 s :
  String.eqb m "sunrise" = false ->
  fst (doSunset t0 s) = false -> fst (doSunset t1 s) = false ->
  armWindow m t0 t1 t2 s = doSunrise t2 s.
Proof.
  intros Hm H0 H1.
  assert (A : forall i, (i < 2)%nat -> attempt m i = doSunset).
  { intros i Hi. unfold attempt. rewrite Hm.
    destruct i as [|[|i]]; [reflexivity|reflexivity|lia]. }
  rewrite armWindow_dayAfter.
  - unfold attempt. rewrite Hm. reflexivity.
  - rewrite A by lia. exact H0.
  - rewrite A by lia. exact H1.
Qed.

(** ** [setupSensor] *)

(** With a complete configuration and a device that has a position,
    [setupSensor] is: release, subscribe, arm the window of the three days
    starting at the last local midnight. *)
Lemma setupSensor_configured (s : state) dev p m :
  linkedPositionSensor s = Some dev -> devicePosition dev = Some p ->
  mode s = Some m -> truthy (Some m) = true ->
  let d0 := localMidnight (clock s) in
  setupSensor s =
  (Normal,
   snd (armWindow m
          (getTimes d0 (latitude p) (longitude p))
          (getTimes (nextDay d0) (latitude p) (longitude p))
          (getTimes (nextDay (nextDay d0)) (latitude p) (longitude p))
          (subscribed (release s)))).
Proof.
  intros Hd Hp Hm Ht. unfold setupSensor.
  destruct (release_frame s) as (Hc & _ & _ & _ & Hl & Hmo & _).
  rewrite Hl, Hd, Hmo, Hm, Ht. cbn [negb].
  unfold subscribed. destruct (listen (release s)) as [l s1] eqn:E.
  unfold listen in E. inversion E; subst; clear E. cbn.
  rewrite Hp, Hc. reflexivity.
Qed.

(** With an incomplete configuration it is [release] alone. *)
Lemma setupSensor_unconfigured (s : state) :
  unconfigured s = true -> setupSensor s = (Normal, release s).
Proof.
  unfold unconfigured, setupSensor.
  destruct (release_frame s) as (_ & _ & _ & _ & Hl & Hmo & _).
  rewrite Hl, Hmo. destruct (linkedPositionSensor s); [|reflexivity].
  destruct (mode s) as [m|]; [|reflexivity].
  intros ->. reflexivity.
Qed.

(** With a complete configuration and a device without a position, the
    [TypeError] leaves the sensor released and subscribed. *)
Lemma setupSensor_noPosition (s : state) dev m :
  linkedPositionSensor s = Some dev -> devicePosition dev = None ->
  mode s = Some m -> truthy (Some m) = true ->
  setupSensor s = (Throw, subscribed (release s)).
Proof.
  intros Hd Hp Hm Ht. unfold setupSensor.
  destruct (release_frame s) as (_ & _ & _ & _ & Hl & Hmo & _).
  rewrite Hl, Hd, Hmo, Hm, Ht. cbn [negb].
  unfold subscribed. destruct (listen (release s)) as [l s1] eqn:E.
  cbn. rewrite Hp. reflexivity.
Qed.

(** In every case the final state is [release s], or the subscribed state
    after one run of the two [if] blocks. *)
Lemma setupSensor_shape (s : state) :
  (unconfigured s = true /\ snd (setupSensor s) = release s) \/
  (unconfigured s = false /\
   exists a b l1 l2,
     snd (setupSensor s) = snd (armPair a b l1 l2 (subscribed (release s)))).
Proof.
  destruct (unconfigured s) eqn:U.
  - left. split; [reflexivity|]. rewrite setupSensor_unconfigured by exact U. reflexivity.
  - right. split; [reflexivity|].
    unfold unconfigured in U.
    destruct (linkedPositionSensor s) as [dev|] eqn:Hd; [|discriminate].
    apply negb_false_iff in U.
    destruct (mode s) as [m|] eqn:Hm; [|discriminate].
    destruct (devicePosition dev) as [p|] eqn:Hp.
    + rewrite (setupSensor_configured s dev p m Hd Hp Hm U). cbn [snd].
      match goal with
      | |- context [armWindow ?m ?a ?b ?c ?s] =>
        destruct (armWindow_armPair m a b c s) as (x & y & l1 & l2 & ->)
      end.
      eauto.
    + exists None, None, NextSunriseStart, NextSunriseEnd.
      rewrite (setupSensor_noPosition s dev m Hd Hp Hm U). reflexivity.
Qed.

(** [setupSensor] never touches the clock, the settings or the binary
    state, and never lowers the timer counter. *)
Lemma setupSensor_frame (s : state) :
  let s' := snd (setupSensor s) in
  clock s' = clock s /\
  linkedPositionSensor s' = linkedPositionSensor s /\
  mode s' = mode s /\
  binaryState s' = binaryState s /\
  (nextTimer s <= nextTimer s')%nat.
Proof.
  cbv zeta.
  destruct (release_frame s) as (Hc & Hn & _ & _ & Hl & Hm & _ & _ & _ & Hb).
  destruct (setupSensor_shape s) as [(_ & ->)|(_ & a & b & l1 & l2 & ->)].
  - rewrite Hc, Hn, Hl, Hm, Hb. repeat split. lia.
  - destruct (subscribed_frame (release s))
      as (Hc' & Hn' & _ & _ & _ & Hl' & Hm' & _ & _ & Hb').
    destruct (armPair_frame a b l1 l2 (subscribed (release s)))
      as (-> & _ & _ & -> & -> & _ & ->).
    pose proof (armPair_counter a b l1 l2 (subscribed (release s))) as Hk.
    cbv zeta in *. rewrite Hn', Hn in Hk.
    rewrite Hc', Hl', Hm', Hb', Hc, Hl, Hm, Hb. repeat split. exact Hk.
Qed.

(** ** Well-formedness is an invariant of the event loop *)

Lemma release_fresh (s : state) : timersFresh s -> timersFresh (release s).
Proof.
  unfold timersFresh. rewrite !Forall_forall. intros H t Ht.
  destruct (release_frame s) as (_ & -> & _).
  apply H, release_timers_incl, Ht.
Qed.

Lemma wf_setupSensor (s : state) : wf s -> wf (snd (setupSensor s)).
Proof.
  intros W. pose proof (release_disarms s W) as (Ht & Hl).
  destruct (setupSensor_shape s) as [(_ & ->)|(_ & a & b & l1 & l2 & ->)].
  - unfold wf, timersOwned, timersFresh, listenersOwned.
    rewrite Ht, Hl. repeat split; constructor.
  - destruct (subscribed_frame (release s)) as (_ & Hn & Hts & Hls & Hpl & _).
    cbv zeta in *. rewrite Ht in Hts. rewrite Hl in Hls. cbn [app] in Hls.
    repeat split.
    + apply armPair_owned. exact Hts.
    + apply armPair_fresh. unfold timersFresh. rewrite Hts. constructor.
    + unfold listenersOwned.
      destruct (armPair_frame a b l1 l2 (subscribed (release s)))
        as (_ & _ & -> & _ & _ & -> & _).
      rewrite Hls, Hpl. repeat constructor.
Qed.

Lemma wf_setBinaryState (b : bool) (s : state) : wf s -> wf (setBinaryState b s).
Proof. destruct s; exact (fun H => H). Qed.

Lemma wf_storagePut (k : setting) (s : state) : wf s -> wf (storagePut k s).
Proof. destruct s, k; exact (fun H => H). Qed.

Lemma wf_advance (dt : Z) (s : state) : wf s -> wf (advance dt s).
Proof. destruct s; exact (fun H => H). Qed.

Lemma wf_clearTimeout (h : option nat) (s : state) : wf s -> wf (clearTimeout h s).
Proof.
  destruct h as [i|]; [|exact (fun H => H)].
  destruct s as [c nt ts nl ls co d m pl st en bs].
  unfold wf, timersOwned, timersFresh, listenersOwned; cbn.
  rewrite !Forall_forall. intros (Ho & Hf & Hl). repeat split; auto.
  - intros t Ht. apply filter_In in Ht. apply Ho, Ht.
  - intros t Ht. apply filter_In in Ht. apply Hf, Ht.
Qed.

Lemma wf_runCallback (cb : handler) (s : state) : wf s -> wf (runCallback cb s).
Proof.
  intros W. destruct cb; cbn.
  - apply wf_setBinaryState, W.
  - apply wf_setupSensor, wf_setBinaryState, W.
Qed.

Lemma wf_fold_setup (ls : list nat) (s : state) :
  wf s -> wf (fold_left (fun acc (_ : nat) => snd (setupSensor acc)) ls s).
Proof.
  revert s. induction ls as [|l ls IH]; intros s W; cbn; [exact W|].
  apply IH, wf_setupSensor, W.
Qed.

Lemma wf_step (e : event) (s s' : state) : wf s -> step e s = Some s' -> wf s'.
Proof.
  intros W. destruct e as [dt|h|p|k]; unfold step, notifyListeners, putSetting.
  - destruct (0 <=? dt); [|discriminate]. intros [= <-]. apply wf_advance, W.
  - destruct (findTimer h (timers s)) as [t|]; [|discriminate].
    destruct (due t <=? clock s); [|discriminate]. intros [= <-].
    apply wf_runCallback. apply (wf_clearTimeout (Some h)), W.
  - destruct (linkedPositionSensor s); [|discriminate]. intros [= <-].
    apply wf_fold_setup.
    exact (wf_storagePut (LinkedPositionSensor (Some (mkDevice p))) s W).
  - intros [= <-]. apply wf_setupSensor. exact (wf_storagePut k s W).
Qed.

Lemma wf_run (es : list event) (s s' : state) : wf s -> run es s = Some s' -> wf s'.
Proof.
  revert s. induction es as [|e es IH]; intros s W; cbn.
  - intros [= <-]. exact W.
  - destruct (step e s) as [s1|] eqn:E; [|discriminate].
    apply IH. eapply wf_step; eassumption.
Qed.

Lemma wf_newSensor now d m b : wf (snd (newSensor now d m b)).
Proof.
  apply wf_setupSensor. repeat split; constructor.
Qed.

(** Every state of a running sensor is well formed. *)
Lemma reachable_wf (s : state) : reachable s -> wf s.
Proof.
  intros (now & d & m & b & es & H). eapply wf_run; [|exact H].
  apply wf_newSensor.
Qed.

(** ** Arming never looks back *)

Lemma armed_In (a : instant) (now : Z) (cb : handler) (x : Z * handler) :
  In x (armed a now cb) <-> a = Some (fst x) /\ now < fst x /\ snd x = cb.
Proof.
  unfold armed. destruct a as [v|]; [destruct (Z.ltb_spec now v)|]; cbn.
  - destruct x as [z h]; cbn. split.
    + intros [[= <- <-]|[]]. auto.
    + intros ([= <-] & _ & <-). auto.
  - destruct x as [z h]; cbn. split; [tauto|]. intros ([= <-] & ? & _). lia.
  - split; [tauto|]. intros (? & _). discriminate.
Qed.

Lemma setupSensor_new (s : state) (t : timer) :
  In t (timers (snd (setupSensor s))) ->
  In t (timers s) \/ ((nextTimer s <= tid t)%nat /\ clock s < fire t).
Proof.
  destruct (release_frame s) as (Hc & Hn & _).
  destruct (setupSensor_shape s) as [(_ & ->)|(_ & a & b & l1 & l2 & ->)].
  - intros H. left. apply release_timers_incl, H.
  - intros H. apply armPair_new in H.
    destruct (subscribed_frame (release s)) as (Hc' & Hn' & Ht' & _).
    cbv zeta in *. rewrite Hc', Hn', Ht', Hc, Hn in H.
    destruct H as [H|H]; [left; apply release_timers_incl, H | right; exact H].
Qed.

(** In a well-formed state every timer pending after [setupSensor] was
    created by that very call. *)
Lemma setupSensor_all_new (s : state) (t : timer) :
  wf s -> In t (timers (snd (setupSensor s))) ->
  (nextTimer s <= tid t)%nat /\ clock s < fire t.
Proof.
  intros W H. destruct (setupSensor_new s t H) as [Hin|?]; [|assumption].
  exfalso. pose proof (release_disarms s W) as (Ht & _).
  destruct (setupSensor_shape s) as [(_ & E)|(_ & a & b & l1 & l2 & E)];
    rewrite E in H.
  - rewrite Ht in H. exact H.
  - apply armPair_new in H.
    destruct (subscribed_frame (release s)) as (_ & Hn' & Ht' & _).
    cbv zeta in *. rewrite Ht', Ht, Hn' in H.
    destruct (release_frame s) as (_ & Hn & _). rewrite Hn in H.
    destruct H as [[]|[Hge _]].
    destruct W as (_ & Hf & _). unfold timersFresh in Hf.
    rewrite Forall_forall in Hf. apply Hf in Hin. lia.
Qed.

Lemma setupSensor_due (s : state) (t : timer) :
  In t (timers (snd (setupSensor s))) ->
  In t (timers s) \/
  (clock s < due t /\ due t = clock s + nodeDelay (fire t - clock s)).
Proof.
  destruct (release_frame s) as (Hc & _).
  destruct (setupSensor_shape s) as [(_ & ->)|(_ & a & b & l1 & l2 & ->)].
  - intros H. left. apply release_timers_incl, H.
  - intros H. apply armPair_due in H.
    destruct (subscribed_frame (release s)) as (Hc' & _ & Ht' & _).
    cbv zeta in *. rewrite Hc', Ht', Hc in H.
    destruct H as [H|H]; [left; apply release_timers_incl, H | right; exact H].
Qed.

Lemma setupSensor_all_due (s : state) (t : timer) :
  wf s -> In t (timers (snd (setupSensor s))) ->
  clock s < due t /\ due t = clock s + nodeDelay (fire t - clock s).
Proof.
  intros W H. destruct (setupSensor_due s t H) as [Hin|?]; [|assumption].
  pose proof (setupSensor_all_new s t W H) as (Hge & _).
  destruct W as (_ & Hf & _). unfold timersFresh in Hf.
  rewrite Forall_forall in Hf. apply Hf in Hin. lia.
Qed.

(** C2.  Each of the two instants of a day is handled on its own: an arming
    routine adds a timer for an instant exactly when that instant is
    strictly after [now], asked for at that instant.  Hence every timer that
    [setupSensor] adds is asked for, and run by Node, strictly after [now],
    and in a well-formed state, where the disarm leaves nothing behind, no
    pending timer is due at or before [now] once [setupSensor] has run. *)
Theorem armed_instants_strictly_future :
  (forall t s,
     schedule (snd (doSunrise t s)) =
     schedule s ++ armed (sunrise t) (clock s) Trigger
                ++ armed (sunriseEnd t) (clock s) Untrigger) /\
  (forall t s,
     schedule (snd (doSunset t s)) =
     schedule s ++ armed (sunsetStart t) (clock s) Trigger
                ++ armed (sunset t) (clock s) Untrigger) /\
  (forall a now cb x,
     In x (armed a now cb) <-> a = Some (fst x) /\ now < fst x /\ snd x = cb) /\
  (forall s t,
     In t (timers (snd (setupSensor s))) ->
     In t (timers s) \/ (clock s < fire t /\ clock s < due t)) /\
  (forall s,
     wf s ->
     Forall (fun t => clock s < fire t /\ clock s < due t)
            (timers (snd (setupSensor s)))).
Proof.
  split; [|split; [|split; [|split]]].
  - intros t s. rewrite doSunrise_armPair. apply armPair_schedule.
  - intros t s. rewrite doSunset_armPair. apply armPair_schedule.
  - apply armed_In.
  - intros s t H. destruct (setupSensor_new s t H) as [?|[_ ?]]; auto.
    destruct (setupSensor_due s t H) as [?|[? _]]; auto.
  - intros s W. apply Forall_forall. intros t H. split.
    + apply (setupSensor_all_new s t W H).
    + apply (setupSensor_all_due s t W H).
Qed.

(** ** The window is searched in order *)

(** C3.  [setupSensor] with a complete configuration arms the window made of
    today, tomorrow and the day after, in that order.  The statement at
    lines 69-73 is the first attempt that returns true: when today's does,
    the result does not depend on the later days; when today's does not and
    tomorrow's does, it does not depend on the day after; otherwise it is the
    third attempt.  An attempt returns true exactly when it armed at least
    one timer, and an attempt that returns false changes nothing. *)
Theorem window_stops_at_first_yielding_day :
  (forall s dev p m,
     linkedPositionSensor s = Some dev -> devicePosition dev = Some p ->
     mode s = Some m -> truthy (Some m) = true ->
     let d0 := localMidnight (clock s) in
     setupSensor s =
     (Normal,
      snd (armWindow m
             (getTimes d0 (latitude p) (longitude p))
             (getTimes (nextDay d0) (latitude p) (longitude p))
             (getTimes (nextDay (nextDay d0)) (latitude p) (longitude p))
             (subscribed (release s))))) /\
  (forall m i t s,
     (fst (attempt m i t s) = true <->
      (List.length (timers s) < List.length (timers (snd (attempt m i t s))))%nat) /\
     (fst (attempt m i t s) = false -> snd (attempt m i t s) = s)) /\
  (forall m t0 t1 t2 s,
     (fst (attempt m 0 t0 s) = true ->
      forall t1' t2', armWindow m t0 t1' t2' s = attempt m 0 t0 s) /\
     (fst (attempt m 0 t0 s) = false -> fst (attempt m 1 t1 s) = true ->
      forall t2', armWindow m t0 t1 t2' s = attempt m 1 t1 s) /\
     (fst (attempt m 0 t0 s) = false -> fst (attempt m 1 t1 s) = false ->
      armWindow m t0 t1 t2 s = attempt m 2 t2 s)).
Proof.
  split; [|split].
  - exact setupSensor_configured.
  - intros m i t s. split.
    + destruct (attempt_armPair m i t s) as (a & b & l1 & l2 & ->).
      apply armPair_armed_iff.
    + apply attempt_idle.
  - intros m t0 t1 t2 s. split; [|split].
    + intros H t1' t2'. apply armWindow_today, H.
    + intros H0 H1 t2'. apply armWindow_tomorrow; assumption.
    + intros H0 H1. apply armWindow_dayAfter; assumption.
Qed.

(** ** The start handler *)

(** C7.  [trigger] sets the binary state to true and leaves every other
    part of the state as it was: the clock, both host tables (so the pending
    end timer and the subscription), the console, the settings and the three
    handle fields.  It does not call [setupSensor]. *)
Theorem trigger_only_sets_binaryState (s : state) :
  binaryState (trigger s) = Some true /\
  trigger s = setBinaryState true s /\
  clock (trigger s) = clock s /\
  nextTimer (trigger s) = nextTimer s /\
  timers (trigger s) = timers s /\
  nextListener (trigger s) = nextListener s /\
  listeners (trigger s) = listeners s /\
  console (trigger s) = console s /\
  linkedPositionSensor (trigger s) = linkedPositionSensor s /\
  mode (trigger s) = mode s /\
  positionListener (trigger s) = positionListener s /\
  startTimeout (trigger s) = startTimeout s /\
  endTimeout (trigger s) = endTimeout s.
Proof. destruct s; cbn; repeat split. Qed.

(** ** Start before end *)




(** ** Disarm before re-arm *)

Lemma allNew_setupSensor (n : nat) (s : state) :
  allNew n s -> allNew n (snd (setupSensor s)).
Proof.
  intros (Hn & Hall). split.
  - destruct (setupSensor_frame s) as (_ & _ & _ & _ & Hk). cbv zeta in Hk. lia.
  - rewrite Forall_forall in *. intros t Ht.
    destruct (setupSensor_new s t Ht) as [Hin|[Hge _]]; [auto | lia].
Qed.

Lemma allNew_clearTimeout (n : nat) (h : option nat) (s : state) :
  allNew n s -> allNew n (clearTimeout h s).
Proof.
  destruct h as [i|]; [|exact (fun H => H)].
  destruct s as [c nt ts nl ls co d m pl st en bs]. unfold allNew; cbn.
  rewrite !Forall_forall. intros (Hn & Hall). split; [exact Hn|].
  intros t Ht. apply filter_In in Ht. apply Hall, Ht.
Qed.

Lemma allNew_setBinaryState (n : nat) (b : bool) (s : state) :
  allNew n s -> allNew n (setBinaryState b s).
Proof. destruct s; exact (fun H => H). Qed.

Lemma allNew_storagePut (n : nat) (k : setting) (s : state) :
  allNew n s -> allNew n (storagePut k s).
Proof. destruct s, k; exact (fun H => H). Qed.

Lemma allNew_fold_setup (n : nat) (ls : list nat) (s : state) :
  allNew n s ->
  allNew n (fold_left (fun acc (_ : nat) => snd (setupSensor acc)) ls s).
Proof.
  revert s. induction ls as [|l ls IH]; intros s H; cbn; [exact H|].
  apply IH, allNew_setupSensor, H.
Qed.

Lemma allNew_step (n : nat) (e : event) (s s' : state) :
  allNew n s -> step e s = Some s' -> allNew n s'.
Proof.
  intros H. destruct e as [dt|h|p|k]; unfold step, notifyListeners, putSetting.
  - destruct (0 <=? dt); [|discriminate]. intros [= <-]. destruct s; exact H.
  - destruct (findTimer h (timers s)) as [t|]; [|discriminate].
    destruct (due t <=? clock s); [|discriminate]. intros [= <-].
    pose proof (allNew_clearTimeout n (Some h) s H) as H1.
    destruct (callback t); unfold runCallback, untrigger, trigger.
    + apply allNew_setBinaryState. exact H1.
    + apply allNew_setupSensor, allNew_setBinaryState. exact H1.
  - destruct (linkedPositionSensor s); [|discriminate]. intros [= <-].
    apply allNew_fold_setup.
    exact (allNew_storagePut n (LinkedPositionSensor (Some (mkDevice p))) s H).
  - intros [= <-]. apply allNew_setupSensor. exact (allNew_storagePut n k s H).
Qed.

Lemma findTimer_Some (h : nat) (ts : list timer) (t : timer) :
  findTimer h ts = Some t -> In t ts /\ tid t = h.
Proof.
  unfold findTimer. intros H. apply find_some in H.
  destruct H as (Hin & E). apply Nat.eqb_eq in E. auto.
Qed.

(** Once every pending timer has a handle of at least [n], no later run of
    the event loop fires a timer below [n]. *)
Lemma allNew_run (n : nat) (es : list event) (s s' : state) :
  allNew n s -> run es s = Some s' ->
  forall h, In (TimerDue h) es -> (n <= h)%nat.
Proof.
  revert s. induction es as [|e es IH]; intros s H R h Hin; [destruct Hin|].
  cbn in R. destruct (step e s) as [s1|] eqn:E; [|discriminate].
  destruct Hin as [->|Hin].
  - unfold step in E.
    destruct (findTimer h (timers s)) as [t|] eqn:F; [|discriminate].
    apply findTimer_Some in F. destruct F as (Ht & <-).
    destruct H as (_ & Hall). rewrite Forall_forall in Hall. apply Hall, Ht.
  - eapply IH; [|exact R|exact Hin]. eapply allNew_step; eassumption.
Qed.

(** C4.  In a well-formed state, [release] cancels every pending timer and
    removes every listener, and [setupSensor] starts with it: the timers and
    the listener pending afterwards all have handles created after the
    disarm, while every timer armed before has a smaller handle.  Whatever
    the event loop does after a [release] or a [setupSensor], no timer that
    was armed before it ever fires. *)
Theorem superseded_timers_never_fire (s : state) :
  wf s ->
  disarmed (release s) /\
  (forall t, In t (timers s) -> (tid t < nextTimer s)%nat) /\
  (forall t, In t (timers (snd (setupSensor s))) -> (nextTimer s <= tid t)%nat) /\
  (forall l, In l (listeners (snd (setupSensor s))) -> (nextListener s <= l)%nat) /\
  (forall es s', run es (release s) = Some s' ->
     forall h, In (TimerDue h) es -> (nextTimer s <= h)%nat) /\
  (forall es s', run es (snd (setupSensor s)) = Some s' ->
     forall h, In (TimerDue h) es -> (nextTimer s <= h)%nat).
Proof.
  intros W. pose proof (release_disarms s W) as D.
  destruct (release_frame s) as (_ & Hn & Hnl & _).
  split; [exact D|]. split; [|split; [|split; [|split]]].
  - destruct W as (_ & Hf & _). unfold timersFresh in Hf.
    rewrite Forall_forall in Hf. exact Hf.
  - intros t Ht. apply (setupSensor_all_new s t W Ht).
  - intros l Hl. destruct D as (_ & Dl).
    destruct (setupSensor_shape s) as [(_ & E)|(_ & a & b & l1 & l2 & E)];
      rewrite E in Hl.
    + rewrite Dl in Hl. destruct Hl.
    + destruct (armPair_frame a b l1 l2 (subscribed (release s)))
        as (_ & _ & El & _).
      cbv zeta in El. rewrite El in Hl.
      destruct (subscribed_frame (release s)) as (_ & _ & _ & Els & _).
      cbv zeta in Els. rewrite Els, Dl, Hnl in Hl.
      destruct Hl as [<-|[]]. lia.
  - intros es s' R. apply (allNew_run (nextTimer s) es (release s) s'); [|exact R].
    split; [lia|]. destruct D as (-> & _). constructor.
  - intros es s' R.
    apply (allNew_run (nextTimer s) es (snd (setupSensor s)) s'); [|exact R].
    split.
    + destruct (setupSensor_frame s) as (_ & _ & _ & _ & Hk). exact Hk.
    + apply Forall_forall. intros t Ht. apply (setupSensor_all_new s t W Ht).
Qed.

(** ** The end handler *)

(** C6.  [untrigger] is [setupSensor] run on the state whose binary state
    has been set to false, and the binary state is still false when it
    returns.  Of the events of the loop, only a due end timer, a position
    change and a settings change can create a timer: a due start timer and
    the passing of time never do. *)
Theorem end_handler_rearms :
  (forall s, untrigger s = setupSensor (setBinaryState false s)) /\
  (forall s, binaryState (snd (untrigger s)) = Some false) /\
  (forall e s s',
     step e s = Some s' -> (nextTimer s < nextTimer s')%nat ->
     match e with
     | TimerDue h =>
       exists t, findTimer h (timers s) = Some t /\ callback t = Untrigger /\
                 s' = snd (untrigger (clearTimeout (Some h) s))
     | PositionChanged _ | PutSetting _ => True
     | Tick _ => False
     end).
Proof.
  split; [|split].
  - reflexivity.
  - intros s. unfold untrigger.
    destruct (setupSensor_frame (setBinaryState false s)) as (_ & _ & _ & -> & _).
    destruct s; reflexivity.
  - intros e s s' E Hlt. destruct e as [dt|h|p|k]; try exact I.
    + unfold step in E. destruct (0 <=? dt); [|discriminate].
      injection E as <-. destruct s; cbn in Hlt. lia.
    + unfold step in E.
      destruct (findTimer h (timers s)) as [t|] eqn:F; [|discriminate].
      destruct (due t <=? clock s); [|discriminate].
      injection E as <-. exists t.
      destruct (callback t) eqn:C.
      * exfalso. unfold runCallback, trigger in Hlt.
        destruct s as [c nt ts nl ls co d m pl st en bs]; cbn in Hlt. lia.
      * repeat split.
Qed.

(** ** Running [setupSensor] twice *)

Lemma attempt_similar m i t s s' :
  clock s = clock s' -> schedule s = schedule s' ->
  fst (attempt m i t s) = fst (attempt m i t s') /\
  schedule (snd (attempt m i t s)) = schedule (snd (attempt m i t s')).
Proof.
  intros Hc Hs. destruct (attempt_shape m i t) as (l1 & l2 & H).
  rewrite !H, !armPair_yields, !armPair_schedule, Hc, Hs. split; reflexivity.
Qed.

Lemma armWindow_similar m t0 t1 t2 s s' :
  clock s = clock s' -> schedule s = schedule s' ->
  schedule (snd (armWindow m t0 t1 t2 s)) =
  schedule (snd (armWindow m t0 t1 t2 s')).
Proof.
  intros Hc Hs.
  destruct (attempt_similar m 0 t0 s s' Hc Hs) as (Y0 & S0).
  destruct (attempt_similar m 1 t1 s s' Hc Hs) as (Y1 & S1).
  destruct (attempt_similar m 2 t2 s s' Hc Hs) as (Y2 & S2).
  destruct (fst (attempt m 0 t0 s)) eqn:H0.
  - rewrite !armWindow_today by congruence. exact S0.
  - destruct (fst (attempt m 1 t1 s)) eqn:H1.
    + rewrite !armWindow_tomorrow by congruence. exact S1.
    + rewrite !armWindow_dayAfter by congruence. exact S2.
Qed.

(** From two well-formed states with the same clock and the same settings,
    [setupSensor] completes the same way and leaves the same schedule. *)
Lemma setupSensor_similar (s s' : state) :
  wf s -> wf s' -> clock s = clock s' ->
  linkedPositionSensor s = linkedPositionSensor s' -> mode s = mode s' ->
  fst (setupSensor s) = fst (setupSensor s') /\
  schedule (snd (setupSensor s)) = schedule (snd (setupSensor s')).
Proof.
  intros W W' Hc Hl Hm.
  pose proof (release_disarms s W) as (Ht & _).
  pose proof (release_disarms s' W') as (Ht' & _).
  assert (Hsub : forall x, timers (release x) = [] ->
                           schedule (subscribed (release x)) = []).
  { intros x Hx. unfold schedule.
    destruct (subscribed_frame (release x)) as (_ & _ & E & _).
    cbv zeta in E. rewrite E, Hx. reflexivity. }
  assert (Hck : forall x, clock (subscribed (release x)) = clock x).
  { intros x. destruct (subscribed_frame (release x)) as (E & _).
    destruct (release_frame x) as (E' & _). cbv zeta in E. congruence. }
  destruct (unconfigured s) eqn:U.
  - assert (U' : unconfigured s' = true)
      by (unfold unconfigured in *; rewrite <- Hl, <- Hm; exact U).
    rewrite !setupSensor_unconfigured by assumption. cbn [fst snd].
    unfold schedule. rewrite Ht, Ht'. split; reflexivity.
  - unfold unconfigured in U.
    destruct (linkedPositionSensor s) as [dev|] eqn:Hd; [|discriminate].
    apply negb_false_iff in U.
    destruct (mode s) as [m|] eqn:Hmo; [|discriminate].
    symmetry in Hl, Hm.
    destruct (devicePosition dev) as [p|] eqn:Hp.
    + rewrite (setupSensor_configured s dev p m Hd Hp Hmo U).
      rewrite (setupSensor_configured s' dev p m Hl Hp Hm U).
      cbn [fst snd]. split; [reflexivity|]. rewrite <- Hc.
      apply armWindow_similar.
      * rewrite !Hck. exact Hc.
      * rewrite !Hsub by assumption. reflexivity.
    + rewrite (setupSensor_noPosition s dev m Hd Hp Hmo U).
      rewrite (setupSensor_noPosition s' dev m Hl Hp Hm U).
      cbn [fst snd]. split; [reflexivity|].
      rewrite !Hsub by assumption. reflexivity.
Qed.

Lemma setupSensor_due_list (s : state) :
  wf s ->
  map due (timers (snd (setupSensor s))) =
  map (fun x => clock s + nodeDelay (fst x - clock s)) (schedule (snd (setupSensor s))).
Proof.
  intros W. unfold schedule. rewrite map_map. apply map_ext_in.
  intros t Ht. cbn [fst]. apply (setupSensor_all_due s t W Ht).
Qed.

(** C8.  In a well-formed state, a second [setupSensor] right after a first,
    with the clock and the settings unchanged, completes the same way and
    leaves the same instants pending with the same callbacks, which Node
    runs from the same instants.  The timers and the listener it leaves are
    new ones: those of the first run have been cancelled. *)
Theorem setupSensor_twice_same_schedule (s : state) :
  wf s ->
  let s1 := snd (setupSensor s) in
  let s2 := snd (setupSensor s1) in
  schedule s2 = schedule s1 /\
  fst (setupSensor s1) = fst (setupSensor s) /\
  (forall t, In t (timers s2) -> (nextTimer s1 <= tid t)%nat) /\
  (forall t, In t (timers s1) -> (tid t < nextTimer s1)%nat) /\
  List.length (listeners s2) = List.length (listeners s1) /\
  map due (timers s2) = map due (timers s1).
Proof.
  intros W s1 s2.
  assert (W1 : wf s1) by (apply wf_setupSensor, W).
  destruct (setupSensor_frame s) as (Hc & Hl & Hm & _). fold s1 in Hc, Hl, Hm.
  destruct (setupSensor_similar s1 s W1 W Hc Hl Hm) as (Hf & Hs).
  split; [exact Hs|]. split; [exact Hf|]. split; [|split; [|split]]; cycle 3.
  { pose proof (setupSensor_due_list s W) as D. fold s1 in D, Hs.
    unfold s2. rewrite (setupSensor_due_list s1 W1), D, Hs, Hc. reflexivity. }
  - intros t Ht. apply (setupSensor_all_new s1 t W1 Ht).
  - destruct W1 as (_ & Hfr & _). unfold timersFresh in Hfr.
    rewrite Forall_forall in Hfr. exact Hfr.
  - assert (L : forall x, wf x ->
       List.length (listeners (snd (setupSensor x))) =
       if unconfigured x then 0%nat else 1%nat).
    { intros x Wx. pose proof (release_disarms x Wx) as (_ & Dl).
      destruct (setupSensor_shape x) as [(-> & ->)|(-> & a & b & l1 & l2 & ->)].
      - rewrite Dl. reflexivity.
      - destruct (armPair_frame a b l1 l2 (subscribed (release x)))
          as (_ & _ & El & _).
        cbv zeta in El. rewrite El.
        destruct (subscribed_frame (release x)) as (_ & _ & _ & Els & _).
        cbv zeta in Els. rewrite Els, Dl. reflexivity. }
    unfold s2. rewrite (L s1 W1). unfold s1 at 2. rewrite (L s W).
    unfold unconfigured. rewrite Hl, Hm. reflexivity.
Qed.

(** ** An exhausted window *)

(** C9.  With a complete configuration, a device that has a position, and a
    window in which no day yields an instant strictly after [now],
    [setupSensor] returns normally having created no timer: the sensor is
    released and subscribed, nothing is pending, and the binary state is what
    it was.  No timer event is possible afterwards, and the passing of time
    alone changes nothing: only a position change or a settings change can
    run [setupSensor] again. *)
Theorem exhausted_window_stays_disarmed (s : state) dev p m :
  wf s ->
  linkedPositionSensor s = Some dev -> devicePosition dev = Some p ->
  mode s = Some m -> truthy (Some m) = true ->
  let d0 := localMidnight (clock s) in
  dayYields m 0 (getTimes d0 (latitude p) (longitude p)) (clock s) = false ->
  dayYields m 1 (getTimes (nextDay d0) (latitude p) (longitude p)) (clock s) = false ->
  dayYields m 2 (getTimes (nextDay (nextDay d0)) (latitude p) (longitude p)) (clock s)
    = false ->
  let s' := snd (setupSensor s) in
  setupSensor s = (Normal, subscribed (release s)) /\
  timers s' = [] /\
  nextTimer s' = nextTimer s /\
  binaryState s' = binaryState s /\
  (forall h, step (TimerDue h) s' = None) /\
  (forall dt s'', step (Tick dt) s' = Some s'' ->
     timers s'' = [] /\ binaryState s'' = binaryState s).
Proof.
  intros W Hd Hp Hm Ht d0 Y0 Y1 Y2 s'.
  pose proof (release_disarms s W) as (Dt & _).
  destruct (release_frame s) as (Hc & Hn & _ & _ & _ & _ & _ & _ & _ & Hb).
  destruct (subscribed_frame (release s))
    as (Hc' & Hn' & Ht' & _ & _ & _ & _ & _ & _ & Hb').
  cbv zeta in *.
  assert (Hck : clock (subscribed (release s)) = clock s) by congruence.
  assert (E : setupSensor s = (Normal, subscribed (release s))).
  { rewrite (setupSensor_configured s dev p m Hd Hp Hm Ht). f_equal.
    rewrite armWindow_dayAfter by (rewrite attempt_yields, Hck; assumption).
    apply attempt_idle. rewrite attempt_yields, Hck. exact Y2. }
  assert (Ets : timers s' = []) by (unfold s'; rewrite E; cbn [snd]; congruence).
  assert (Eb : binaryState s' = binaryState s)
    by (unfold s'; rewrite E; cbn [snd]; congruence).
  split; [exact E|]. split; [exact Ets|]. split; [|split; [exact Eb|split]].
  - unfold s'. rewrite E. cbn [snd]. congruence.
  - intros h. unfold step. rewrite Ets. reflexivity.
  - intros dt s''. unfold step. destruct (0 <=? dt); [|discriminate].
    intros [= <-]. destruct s'; cbn in *. auto.
Qed.

(** ** An incomplete configuration *)

Lemma release_keeps_disarmed (s : state) : disarmed s -> disarmed (release s).
Proof.
  intros (Ht & Hl). split.
  - destruct (timers (release s)) as [|t ts] eqn:E; [reflexivity|].
    assert (H : In t (timers s))
      by (apply release_timers_incl; rewrite E; left; reflexivity).
    rewrite Ht in H. destruct H.
  - destruct (listeners (release s)) as [|l ls] eqn:E; [reflexivity|].
    assert (H : In l (listeners s))
      by (apply release_listeners_incl; rewrite E; left; reflexivity).
    rewrite Hl in H. destruct H.
Qed.

Lemma unconfigured_setupSensor (s : state) :
  unconfigured (snd (setupSensor s)) = unconfigured s.
Proof.
  destruct (setupSensor_frame s) as (_ & Hl & Hm & _). cbv zeta in *.
  unfold unconfigured. rewrite Hl, Hm. reflexivity.
Qed.

(** A disarmed sensor with an incomplete configuration stays so, with the
    same binary state, through every event after which the configuration is
    still incomplete. *)
Lemma quiescent_step (e : event) (s s' : state) :
  unconfigured s = true -> disarmed s -> step e s = Some s' ->
  unconfigured s' = true ->
  disarmed s' /\ binaryState s' = binaryState s.
Proof.
  intros U (Ht & Hl) E U'. destruct e as [dt|h|p|k]; unfold step in E.
  - destruct (0 <=? dt); [|discriminate]. injection E as <-.
    destruct s; cbn in *. repeat split; assumption.
  - rewrite Ht in E. discriminate.
  - destruct (linkedPositionSensor s); [|discriminate]. injection E as <-.
    unfold notifyListeners.
    destruct s; cbn in *; subst; cbn. repeat split.
  - injection E as <-. unfold putSetting in *.
    rewrite unconfigured_setupSensor in U'.
    rewrite setupSensor_unconfigured by exact U'. cbn [snd]. split.
    + apply release_keeps_disarmed. destruct s, k; split; assumption.
    + destruct (release_frame (storagePut k s)) as (_ & _ & _ & _ & _ & _ & _ & _ & _ & ->).
      destruct s, k; reflexivity.
Qed.

Lemma quiescent_step_unconfigured (e : event) (s s' : state) :
  unconfigured s = true -> disarmed s -> step e s = Some s' ->
  (forall k, e <> PutSetting k) -> unconfigured s' = true.
Proof.
  intros U (Ht & Hl) E N. destruct e as [dt|h|p|k]; unfold step in E.
  - destruct (0 <=? dt); [|discriminate]. injection E as <-.
    destruct s; exact U.
  - rewrite Ht in E. discriminate.
  - destruct (linkedPositionSensor s) eqn:L; [|discriminate]. injection E as <-.
    unfold notifyListeners, unconfigured in *.
    destruct s; cbn in *; subst; cbn. exact U.
  - destruct (N k eq_refl).
Qed.

(** C5, as the code has it.  When the linked position sensor or the mode is
    absent (unset or empty), [setupSensor] returns normally after [release]:
    in a well-formed state no timer is pending, no listener is registered,
    and the binary state is what it was.  From then on the sensor stays
    disarmed with the same binary state through every event that leaves the
    configuration incomplete, and no event other than a settings change
    makes it complete.  A mode that is present is never rejected: every
    value other than "sunrise" is armed exactly as "sunset" is. *)
Theorem incomplete_configuration_is_quiescent :
  (forall s,
     wf s -> unconfigured s = true ->
     setupSensor s = (Normal, release s) /\
     disarmed (snd (setupSensor s)) /\
     binaryState (snd (setupSensor s)) = binaryState s /\
     unconfigured (snd (setupSensor s)) = true) /\
  (forall e s s',
     unconfigured s = true -> disarmed s -> step e s = Some s' ->
     unconfigured s' = true ->
     disarmed s' /\ binaryState s' = binaryState s) /\
  (forall es s s',
     unconfigured s = true -> disarmed s -> run es s = Some s' ->
     (forall k, ~ In (PutSetting k) es) ->
     unconfigured s' = true /\ disarmed s' /\ binaryState s' = binaryState s) /\
  (forall m t0 t1 t2 s,
     String.eqb m "sunrise" = false ->
     armWindow m t0 t1 t2 s = armWindow "sunset" t0 t1 t2 s).
Proof.
  split; [|split; [|split]]; cycle 3.
  { intros m t0 t1 t2 s Hm. unfold armWindow. rewrite Hm. reflexivity. }
  - intros s W U. rewrite (setupSensor_unconfigured s U). cbn [snd].
    split; [reflexivity|]. split; [apply release_disarms, W|].
    destruct (release_frame s) as (_ & _ & _ & _ & Hl & Hm & _ & _ & _ & Hb).
    split; [exact Hb|]. unfold unconfigured. rewrite Hl, Hm. exact U.
  - exact quiescent_step.
  - induction es as [|e es IH]; intros s s' U D R N.
    + injection R as <-. auto.
    + cbn in R. destruct (step e s) as [s1|] eqn:E; [|discriminate].
      assert (U1 : unconfigured s1 = true).
      { apply (quiescent_step_unconfigured e s s1 U D E).
        intros k ->. apply (N k). left. reflexivity. }
      destruct (quiescent_step e s s1 U D E U1) as (D1 & B1).
      destruct (IH s1 s' U1 D1 R) as (U2 & D2 & B2).
      { intros k Hk. apply (N k). right. exact Hk. }
      rewrite <- B1. auto.
Qed.

(** * Further properties of the sensor *)

(** ** [release] *)

Lemma filter_twice {A : Type} (f g : A -> bool) (l : list A) :
  filter g (filter f (filter g (filter f l))) = filter g (filter f l).
Proof.
  induction l as [|a l IH]; [reflexivity|]. cbn.
  destruct (f a) eqn:Hf; cbn; [|exact IH].
  destruct (g a) eqn:Hg; cbn; [|exact IH].
  rewrite Hf. cbn. rewrite Hg. f_equal. exact IH.
Qed.

Lemma filter_once {A : Type} (f : A -> bool) (l : list A) :
  filter f (filter f l) = filter f l.
Proof.
  induction l as [|a l IH]; [reflexivity|]. cbn.
  destruct (f a) eqn:Hf; cbn; [|exact IH]. rewrite Hf. f_equal. exact IH.
Qed.

(** [release] can be called any number of times, from any state: a second
    call right after a first changes nothing, whatever the three handle
    fields hold (undefined, stale or live). *)
Theorem release_idempotent (s : state) : release (release s) = release s.
Proof.
  destruct s as [c nt ts nl ls co d m [pl|] [st|] [en|] b]; cbn;
    rewrite ?filter_twice, ?filter_once; reflexivity.
Qed.

(** ** A linked device without a position *)

(** When the configuration is complete and the linked device has no
    position yet, [setupSensor] throws while reading the latitude.  By then
    the old timers and listener are gone and the new listener is registered:
    in a well-formed state nothing is pending, the only listener is the new
    one, held by [positionListener], and the binary state is untouched. *)
Theorem missing_position_throws_subscribed (s : state) dev m :
  wf s ->
  linkedPositionSensor s = Some dev -> devicePosition dev = None ->
  mode s = Some m -> truthy (Some m) = true ->
  let s' := snd (setupSensor s) in
  fst (setupSensor s) = Throw /\
  timers s' = [] /\
  nextTimer s' = nextTimer s /\
  listeners s' = [nextListener s] /\
  positionListener s' = Some (nextListener s) /\
  binaryState s' = binaryState s.
Proof.
  intros W Hd Hp Hm Ht s'. unfold s'.
  rewrite (setupSensor_noPosition s dev m Hd Hp Hm Ht). cbn [fst snd].
  pose proof (release_disarms s W) as (Dt & Dl).
  destruct (release_frame s) as (_ & Hn & Hnl & _ & _ & _ & _ & _ & _ & Hb).
  destruct (subscribed_frame (release s))
    as (_ & Hn' & Ht' & Hl' & Hpl & _ & _ & _ & _ & Hb').
  cbv zeta in *. rewrite Hn', Ht', Hl', Hpl, Hb', Dt, Dl, Hn, Hnl, Hb.
  repeat split.
Qed.


(** ** What a running sensor keeps *)

Lemma armPair_roles a b l1 l2 s :
  timers s = [] ->
  let s' := snd (armPair a b l1 l2 s) in
  rolesKept s' /\
  (List.length (startTimers s') <= 1)%nat /\
  (List.length (endTimers s') <= 1)%nat.
Proof.
  unfold rolesKept, startTimers, endTimers.
  run_armPair a b s; intros ->; cbn; repeat split;
    repeat (apply Forall_cons || apply Forall_nil); cbn; auto.
Qed.

Lemma filter_filter_length {A : Type} (p f : A -> bool) (l : list A) :
  (List.length (filter p (filter f l)) <= List.length (filter p l))%nat.
Proof.
  induction l as [|a l IH]; [apply Nat.le_refl|]. cbn.
  destruct (f a); cbn; destruct (p a); cbn; lia.
Qed.

Lemma invariant_setupSensor (s : state) :
  wf s -> sensorInvariant (snd (setupSensor s)).
Proof.
  intros W. pose proof (wf_setupSensor s W) as W'.
  pose proof (unconfigured_setupSensor s) as U.
  pose proof (release_disarms s W) as (Dt & Dl).
  split; [exact W'|].
  destruct (setupSensor_shape s) as [(Hu & E)|(Hu & a & b & l1 & l2 & E)];
    rewrite Hu in U; rewrite U; rewrite E in *.
  - unfold rolesKept, startTimers, endTimers. rewrite Dt, Dl. cbn.
    repeat split; auto.
  - destruct (subscribed_frame (release s)) as (_ & _ & Ht' & Hl' & _).
    cbv zeta in *. rewrite Dt in Ht'. rewrite Dl in Hl'.
    destruct (armPair_roles a b l1 l2 (subscribed (release s)) Ht') as (R & S1 & S2).
    destruct (armPair_frame a b l1 l2 (subscribed (release s))) as (_ & _ & El & _).
    cbv zeta in *. rewrite El, Hl'.
    repeat split; auto. discriminate.
Qed.








Lemma invariant_newSensor now d m b : sensorInvariant (snd (newSensor now d m b)).
Proof. apply invariant_setupSensor. repeat split; constructor. Qed.


(** ** Position reports *)



(** ** The binary state *)

Lemma fold_setup_binaryState (ls : list nat) (s : state) :
  binaryState (fold_left (fun acc (_ : nat) => snd (setupSensor acc)) ls s) =
  binaryState s.
Proof.
  revert s. induction ls as [|l ls IH]; intros s; cbn; [reflexivity|].
  rewrite IH. destruct (setupSensor_frame s) as (_ & _ & _ & Hb & _). exact Hb.
Qed.

(** The binary state is written by the two timer callbacks and by nothing
    else: when a timer is run it becomes true for a start timer and false for
    an end timer, and neither the passing of time, nor a position report, nor
    a settings change - complete or not - alters it. *)
Theorem binaryState_written_only_by_timers (e : event) (s s' : state) :
  step e s = Some s' ->
  match e with
  | TimerDue h =>
    exists t, findTimer h (timers s) = Some t /\ due t <= clock s /\
              binaryState s' = Some (isTrigger t)
  | _ => binaryState s' = binaryState s
  end.
Proof.
  destruct e as [dt|h|p|k]; unfold step, notifyListeners, putSetting.
  - destruct (0 <=? dt); [|discriminate]. intros [= <-]. destruct s; reflexivity.
  - destruct (findTimer h (timers s)) as [t|] eqn:F; [|discriminate].
    destruct (Z.leb_spec (due t) (clock s)) as [Hle|]; [|discriminate].
    set (s1 := clearTimeout (Some h) s).
    intros [= <-]. exists t. split; [reflexivity|]. split; [exact Hle|].
    unfold isTrigger, runCallback, untrigger, trigger.
    destruct (callback t).
    + reflexivity.
    + destruct (setupSensor_frame (setBinaryState false s1)) as (_ & _ & _ & Hb & _).
      rewrite Hb. reflexivity.
  - destruct (linkedPositionSensor s); [|discriminate]. intros [= <-].
    rewrite fold_setup_binaryState. destruct s; reflexivity.
  - intros [= <-].
    destruct (setupSensor_frame (storagePut k s)) as (_ & _ & _ & -> & _).
    destruct s, k; reflexivity.
Qed.

(** ** What [setupSensor] arms, in closed form *)

Lemma attempt_schedule m i t s :
  schedule (snd (attempt m i t s)) = schedule s ++ futurePair m i t (clock s).
Proof.
  destruct (attempt_shape m i t) as (l1 & l2 & H). rewrite H.
  apply armPair_schedule.
Qed.

Lemma setupSensor_schedule (s : state) dev p m :
  wf s ->
  linkedPositionSensor s = Some dev -> devicePosition dev = Some p ->
  mode s = Some m -> truthy (Some m) = true ->
  let d0 := localMidnight (clock s) in
  schedule (snd (setupSensor s)) =
  firstFuturePair m (clock s)
    (getTimes d0 (latitude p) (longitude p))
    (getTimes (nextDay d0) (latitude p) (longitude p))
    (getTimes (nextDay (nextDay d0)) (latitude p) (longitude p)).
Proof.
  intros W Hd Hp Hm Ht d0.
  rewrite (setupSensor_configured s dev p m Hd Hp Hm Ht). cbn [snd]. fold d0.
  pose proof (release_disarms s W) as (Dt & _).
  destruct (release_frame s) as (Hc & _).
  destruct (subscribed_frame (release s)) as (Hc' & _ & Ht' & _).
  cbv zeta in *.
  assert (Hck : clock (subscribed (release s)) = clock s) by congruence.
  assert (Hs : schedule (subscribed (release s)) = [])
    by (unfold schedule; rewrite Ht', Dt; reflexivity).
  unfold firstFuturePair. rewrite <- Hck.
  rewrite <- !attempt_yields.
  destruct (fst (attempt m 0 _ (subscribed (release s)))) eqn:Y0.
  - rewrite armWindow_today by exact Y0. rewrite attempt_schedule, Hs. reflexivity.
  - destruct (fst (attempt m 1 _ (subscribed (release s)))) eqn:Y1.
    + rewrite armWindow_tomorrow by assumption.
      rewrite attempt_schedule, Hs. reflexivity.
    + rewrite armWindow_dayAfter by assumption.
      rewrite attempt_schedule, Hs. reflexivity.
Qed.

(** With a complete configuration and a device that has a position, the
    timers pending after [setupSensor] in a well-formed state are exactly the
    future instants of the first of the three days that has one, each with
    its callback: both timers always come from the same day, and the start
    timer is missing exactly when that day's start instant is not in the
    future. *)
Theorem setupSensor_arms_first_future_pair (s : state) dev p m :
  wf s ->
  linkedPositionSensor s = Some dev -> devicePosition dev = Some p ->
  mode s = Some m -> truthy (Some m) = true ->
  let d0 := localMidnight (clock s) in
  schedule (snd (setupSensor s)) =
  firstFuturePair m (clock s)
    (getTimes d0 (latitude p) (longitude p))
    (getTimes (nextDay d0) (latitude p) (longitude p))
    (getTimes (nextDay (nextDay d0)) (latitude p) (longitude p)).
Proof. exact (setupSensor_schedule s dev p m). Qed.

(** What [setupSensor] leaves pending depends only on the clock and on the
    two settings: from two well-formed states that agree on those - whatever
    timers, handles, listener, console or binary state each has - it
    completes the same way and leaves the same instants pending with the
    same callbacks. *)
Theorem schedule_depends_only_on_clock_and_settings (s s' : state) :
  wf s -> wf s' -> clock s = clock s' ->
  linkedPositionSensor s = linkedPositionSensor s' -> mode s = mode s' ->
  fst (setupSensor s) = fst (setupSensor s') /\
  schedule (snd (setupSensor s)) = schedule (snd (setupSensor s')).
Proof. exact (setupSensor_similar s s'). Qed.

(** A sensor set up in the middle of today's window - the start instant has
    passed or is now, the end instant is still to come - gets the end timer
    alone: no start timer is armed for that day, [startTimeout] keeps its old
    handle, and the binary state is not set to true. *)
Theorem mid_window_setup_arms_only_the_end (s : state) dev p m a b :
  wf s ->
  linkedPositionSensor s = Some dev -> devicePosition dev = Some p ->
  mode s = Some m -> truthy (Some m) = true ->
  examined m 0 (getTimes (localMidnight (clock s)) (latitude p) (longitude p)) =
    (Some a, Some b) ->
  a <= clock s < b ->
  let s' := snd (setupSensor s) in
  schedule s' = [(b, Untrigger)] /\
  startTimers s' = [] /\
  startTimeout s' = startTimeout s /\
  binaryState s' = binaryState s.
Proof.
  intros W Hd Hp Hm Ht Hx (Ha & Hb) s'.
  assert (S : schedule s' = [(b, Untrigger)]).
  { unfold s'. rewrite (setupSensor_schedule s dev p m W Hd Hp Hm Ht).
    unfold firstFuturePair, dayYields, futurePair. rewrite Hx. cbn [fst snd laterThan armed].
    destruct (Z.ltb_spec (clock s) a); [lia|].
    destruct (Z.ltb_spec (clock s) b); [|lia]. reflexivity. }
  split; [exact S|].
  assert (T : exists h d, timers s' = [mkTimer h b d Untrigger]).
  { unfold schedule in S. destruct (timers s') as [|[h f d c] [|t ts]]; try discriminate.
    cbn in S. injection S as -> ->. eauto. }
  destruct T as (h & d & T).
  split; [unfold startTimers; rewrite T; reflexivity|].
  split; [|destruct (setupSensor_frame s) as (_ & _ & _ & Hbs & _); exact Hbs].
  revert T. unfold s'.
  rewrite (setupSensor_configured s dev p m Hd Hp Hm Ht). cbn [snd].
  pose proof (release_disarms s W) as (Dt & _).
  destruct (release_frame s) as (Hc & _ & _ & _ & _ & _ & _ & Hst & _).
  destruct (subscribed_frame (release s)) as (Hc' & _ & Ht' & _ & _ & _ & _ & Hst' & _).
  cbv zeta in *.
  assert (Hck : clock (subscribed (release s)) = clock s) by congruence.
  rewrite armWindow_today.
  - destruct (attempt_shape m 0
                (getTimes (localMidnight (clock s)) (latitude p) (longitude p)))
      as (l1 & l2 & E).
    rewrite E, Hx. cbn [fst snd]. intros _.
    rewrite <- Hst, <- Hst'. generalize (subscribed (release s)), Hck.
    intros s1 Hs1. unfold armPair, armIfFuture. rewrite Hs1.
    destruct (Z.ltb_spec (clock s) a); [lia|].
    destruct (Z.ltb_spec (clock s) b); [|lia].
    destruct s1; reflexivity.
  - rewrite attempt_yields, Hck. unfold dayYields. rewrite Hx. cbn [fst snd laterThan].
    destruct (Z.ltb_spec (clock s) b); [|lia]. apply orb_true_r.
Qed.

(** ** The console *)






(** * Properties of the plugin *)

(** ** The map of devices *)

Lemma mapGet_mapSet_same {V : Type} (k : string) (v : V) (m : list (string * V)) :
  mapGet k (mapSet k v m) = Some v.
Proof.
  induction m as [|[k' v'] m IH]; cbn.
  - rewrite String.eqb_refl. reflexivity.
  - destruct (String.eqb k' k) eqn:E; cbn.
    + rewrite String.eqb_refl. reflexivity.
    + rewrite E. exact IH.
Qed.

Lemma mapGet_mapSet_other {V : Type} (k k' : string) (v : V) (m : list (string * V)) :
  k' <> k -> mapGet k' (mapSet k v m) = mapGet k' m.
Proof.
  intros N. induction m as [|[k0 v0] m IH]; cbn.
  - destruct (String.eqb_spec k k'); [congruence|reflexivity].
  - destruct (String.eqb_spec k0 k) as [->|]; cbn.
    + destruct (String.eqb_spec k k'); [congruence|reflexivity].
    + destruct (String.eqb k0 k'); [reflexivity|exact IH].
Qed.

Lemma mapSet_absent {V : Type} (k : string) (v : V) (m : list (string * V)) :
  mapGet k m = None -> mapSet k v m = m ++ [(k, v)].
Proof.
  induction m as [|[k' v'] m IH]; cbn; [reflexivity|].
  destruct (String.eqb k' k); [discriminate|]. intros H. rewrite IH by exact H.
  reflexivity.
Qed.

Lemma mapGet_None_notIn {V : Type} (k : string) (m : list (string * V)) :
  mapGet k m = None -> ~ In k (map fst m).
Proof.
  induction m as [|[k' v'] m IH]; cbn; [tauto|].
  destruct (String.eqb_spec k' k); [discriminate|].
  intros H [E|Hin]; [congruence|exact (IH H Hin)].
Qed.

Lemma mapGet_In {V : Type} (k : string) (v : V) (m : list (string * V)) :
  mapGet k m = Some v -> In (k, v) m.
Proof.
  induction m as [|[k' v'] m IH]; cbn; [discriminate|].
  destruct (String.eqb_spec k' k) as [->|].
  - intros [= ->]. left. reflexivity.
  - intros H. right. exact (IH H).
Qed.

Lemma mapDelete_incl {V : Type} (k : string) (m : list (string * V)) (x : string * V) :
  In x (mapDelete k m) -> In x m.
Proof.
  induction m as [|[k' v'] m IH]; cbn; [tauto|].
  destruct (String.eqb k' k); cbn; [tauto|]. intros [E|H]; auto.
Qed.

Lemma mapDelete_NoDup {V A : Type} (f : string * V -> A) (k : string)
    (m : list (string * V)) :
  NoDup (map f m) -> NoDup (map f (mapDelete k m)).
Proof.
  induction m as [|[k' v'] m IH]; cbn; [auto|].
  intros H. inversion H as [|? ? Hn Hd]; subst.
  destruct (String.eqb k' k); [exact Hd|]. cbn. constructor; [|exact (IH Hd)].
  intros Hin. apply Hn. apply in_map_iff in Hin. destruct Hin as (x & E & Hx).
  apply in_map_iff. exists x. split; [exact E|]. eapply mapDelete_incl, Hx.
Qed.

Lemma mapGet_mapDelete_same {V : Type} (k : string) (m : list (string * V)) :
  NoDup (map fst m) -> mapGet k (mapDelete k m) = None.
Proof.
  induction m as [|[k' v'] m IH]; cbn; [reflexivity|].
  intros H. inversion H as [|? ? Hn Hd]; subst.
  destruct (String.eqb_spec k' k) as [->|N]; cbn.
  - destruct (mapGet k m) as [v|] eqn:E; [|reflexivity].
    destruct Hn. apply mapGet_In in E. apply in_map_iff. exists (k, v). auto.
  - destruct (String.eqb_spec k' k); [congruence|]. exact (IH Hd).
Qed.

Lemma mapGet_mapDelete_other {V : Type} (k k' : string) (m : list (string * V)) :
  k' <> k -> mapGet k' (mapDelete k m) = mapGet k' m.
Proof.
  intros N. induction m as [|[k0 v0] m IH]; cbn; [reflexivity|].
  destruct (String.eqb_spec k0 k) as [->|]; cbn.
  - destruct (String.eqb_spec k k'); [congruence|reflexivity].
  - destruct (String.eqb k0 k'); [reflexivity|exact IH].
Qed.

Lemma NoDup_snd_injective {V : Type} (m : list (string * V)) (a b : string) (v : V) :
  NoDup (map snd m) -> In (a, v) m -> In (b, v) m -> a = b.
Proof.
  induction m as [|[k' v'] m IH]; cbn; [tauto|].
  intros H. inversion H as [|? ? Hn Hd]; subst.
  intros [Ea|Ha] [Eb|Hb].
  - congruence.
  - injection Ea as -> ->. destruct Hn. apply in_map_iff. exists (b, v). auto.
  - injection Eb as -> ->. destruct Hn. apply in_map_iff. exists (a, v). auto.
  - exact (IH Hd Ha Hb).
Qed.

(** ** [getDevice] *)

(** Once [getDevice] has returned a sensor for a native id, asking again
    for that id gives the same sensor object and constructs nothing - no
    second subscription, no second pair of timers - whatever the clock and
    the storage are by then. *)
Theorem getDevice_is_cached (now now' : Z) (st st' : stored) (id : string)
    (p : plugin) (r : nat) :
  fst (getDevice now st id p) = Some r ->
  getDevice now' st' id (snd (getDevice now st id p)) =
  (Some r, snd (getDevice now st id p)).
Proof.
  unfold getDevice at 1 3 4.
  destruct (mapGet id (devices p)) as [r0|] eqn:E.
  - cbn [fst snd]. intros [= ->]. unfold getDevice. rewrite E. reflexivity.
  - destruct (newSensor now _ _ _) as [[|] dv]; cbn [fst snd]; [|discriminate].
    intros [= <-]. unfold getDevice. cbn [devices].
    rewrite mapGet_mapSet_same. reflexivity.
Qed.

Lemma nth_error_app_last {A : Type} (l : list A) (a : A) :
  nth_error (l ++ [a]) (List.length l) = Some a.
Proof. induction l as [|x l IH]; [reflexivity|exact IH]. Qed.

Lemma nth_error_app_old {A : Type} (l : list A) (a : A) (r : nat) :
  (r < List.length l)%nat -> nth_error (l ++ [a]) r = nth_error l r.
Proof.
  revert r. induction l as [|x l IH]; intros r H; cbn in *; [lia|].
  destruct r as [|r]; [reflexivity|]. apply IH. lia.
Qed.

(** For a native id that is not in the map, [getDevice] constructs one new
    sensor from the stored settings, the constructor running [setupSensor]
    once, whether or not that succeeds; the sensors that exist already, the
    other native ids and the list of discovered devices are left as they
    were.  When the constructor returns, the new sensor is registered under
    the id and returned. *)
Theorem getDevice_constructs_when_absent (now : Z) (st : stored) (id : string)
    (p : plugin) :
  mapGet id (devices p) = None ->
  let built := newSensor now (storedSensor st) (storedMode st) (storedBinaryState st) in
  let r := List.length (objects p) in
  let p' := snd (getDevice now st id p) in
  objects p' = objects p ++ [snd built] /\
  sensorAt r p' = Some (snd built) /\
  (forall r0, (r0 < r)%nat -> sensorAt r0 p' = sensorAt r0 p) /\
  (forall id', id' <> id -> mapGet id' (devices p') = mapGet id' (devices p)) /\
  discovered p' = discovered p /\
  (fst built = Normal ->
   fst (getDevice now st id p) = Some r /\ mapGet id (devices p') = Some r).
Proof.
  intros E built r p'. unfold p', r, getDevice. rewrite E. fold built.
  unfold sensorAt.
  destruct built as [[|] dv]; cbn [fst snd devices objects discovered].
  - split; [reflexivity|]. split; [apply nth_error_app_last|].
    split; [intros r0 H; apply nth_error_app_old, H|].
    split; [intros id' N; apply mapGet_mapSet_other, N|].
    split; [reflexivity|]. intros _. split; [reflexivity|apply mapGet_mapSet_same].
  - split; [reflexivity|]. split; [apply nth_error_app_last|].
    split; [intros r0 H; apply nth_error_app_old, H|].
    split; [reflexivity|]. split; [reflexivity|]. discriminate.
Qed.

(** When the stored configuration is complete but the linked device has no
    position yet, the constructor throws: [getDevice] for an id that is not
    in the map is rejected and the id stays out of the map.  The sensor that
    was being constructed is not discarded: it has subscribed to the position
    sensor, with no timer armed.  Every further [getDevice] for the id
    constructs one more such sensor. *)
Theorem getDevice_rejected_without_position (now : Z) (st : stored) (id : string)
    (p : plugin) dev m :
  mapGet id (devices p) = None ->
  storedSensor st = Some dev -> devicePosition dev = None ->
  storedMode st = Some m -> truthy (Some m) = true ->
  let p' := snd (getDevice now st id p) in
  fst (getDevice now st id p) = None /\
  devices p' = devices p /\
  List.length (objects p') = S (List.length (objects p)) /\
  (exists s, sensorAt (List.length (objects p)) p' = Some s /\
             listeners s = [0%nat] /\ positionListener s = Some 0%nat /\
             timers s = []) /\
  List.length (objects (snd (getDevice now st id p'))) = S (S (List.length (objects p))).
Proof.
  intros E Hd Hp Hm Ht p'.
  assert (B : newSensor now (storedSensor st) (storedMode st) (storedBinaryState st) =
              (Throw, subscribed (release
                 (mkState now 0 [] 0 [] [] (storedSensor st) (storedMode st)
                          None None None (storedBinaryState st))))).
  { unfold newSensor. apply (setupSensor_noPosition _ dev m); assumption. }
  assert (G : forall q, mapGet id (devices q) = None ->
                getDevice now st id q =
                (None, mkPlugin (objects q ++ [snd (newSensor now (storedSensor st)
                                   (storedMode st) (storedBinaryState st))])
                                (devices q) (discovered q)
                                ((List.length (objects q), id) :: owners q))).
  { intros q Eq. unfold getDevice. rewrite Eq, B. reflexivity. }
  unfold p'. rewrite (G p E). cbn [fst snd devices objects].
  match goal with
  | |- context [getDevice now st id ?q] => rewrite (G q E)
  end.
  cbn [snd objects]. rewrite !length_app. cbn [List.length].
  split; [reflexivity|]. split; [reflexivity|]. split; [lia|]. split; [|lia].
  unfold sensorAt. cbn [objects]. rewrite nth_error_app_last, B. cbn [snd].
  eexists. split; [reflexivity|]. repeat split.
Qed.

(** ** What a running plugin keeps *)

Lemma setObject_length (r : nat) (s : state) (os : list state) :
  List.length (setObject r s os) = List.length os.
Proof.
  revert r. induction os as [|o os IH]; intros [|r]; cbn; try reflexivity.
  rewrite IH. reflexivity.
Qed.

Lemma setObject_Forall (P : state -> Prop) (r : nat) (s : state) (os : list state) :
  P s -> Forall P os -> Forall P (setObject r s os).
Proof.
  intros Hs. revert r. induction os as [|o os IH]; intros [|r] H; cbn;
    try constructor; inversion H; subst; auto.
Qed.

Lemma nth_error_setObject_same (r : nat) (s o : state) (os : list state) :
  nth_error os r = Some o -> nth_error (setObject r s os) r = Some s.
Proof.
  revert r. induction os as [|x os IH]; intros [|r]; cbn; try discriminate; auto.
Qed.

Lemma nth_error_setObject_other (r k : nat) (s : state) (os : list state) :
  k <> r -> nth_error (setObject r s os) k = nth_error os k.
Proof.
  revert r k. induction os as [|x os IH]; intros [|r] [|k] N; cbn;
    try reflexivity; try congruence.
  apply IH. congruence.
Qed.

Lemma nth_error_shareFrom (i k : nat) id st ws (os : list state) :
  nth_error (shareFrom i id st ws os) k =
  match nth_error os k with
  | Some o => Some (if ownedBy id (i + k) ws then withShared st o else o)
  | None => None
  end.
Proof.
  revert i k. induction os as [|x os IH]; intros i [|k]; cbn; try reflexivity.
  - rewrite Nat.add_0_r. reflexivity.
  - rewrite IH. replace (S i + k)%nat with (i + S k)%nat by lia. reflexivity.
Qed.

Lemma shareFrom_length i id st ws (os : list state) :
  List.length (shareFrom i id st ws os) = List.length os.
Proof.
  revert i. induction os as [|x os IH]; intros i; cbn; [reflexivity|].
  rewrite IH. reflexivity.
Qed.

Lemma shareFrom_Forall (P : state -> Prop) i id st ws (os : list state) :
  (forall o, P o -> P (withShared st o)) ->
  Forall P os -> Forall P (shareFrom i id st ws os).
Proof.
  intros HP. revert i. induction os as [|x os IH]; intros i H; cbn; [constructor|].
  inversion H; subst. constructor; [|apply IH; assumption].
  destruct (ownedBy id i ws); auto.
Qed.

Lemma withShared_shared (s : state) : withShared (shared s) s = s.
Proof. destruct s; reflexivity. Qed.

Lemma shared_withShared (st : stored) (s : state) : shared (withShared st s) = st.
Proof. destruct st; reflexivity. Qed.

Lemma ownedBy_true id r ws : ownedBy id r ws = true <-> ownerOf r ws = Some id.
Proof.
  unfold ownedBy. destruct (ownerOf r ws) as [w|]; [|split; discriminate].
  rewrite String.eqb_eq. split; congruence.
Qed.

Lemma firstOwned_Some i id ws (os : list state) x :
  firstOwned i id ws os = Some x ->
  exists k o, nth_error os k = Some o /\ ownerOf (i + k) ws = Some id /\ shared o = x.
Proof.
  revert i. induction os as [|o os IH]; intros i; cbn; [discriminate|].
  destruct (ownedBy id i ws) eqn:O.
  - intros [= <-]. exists 0%nat, o. rewrite Nat.add_0_r.
    apply ownedBy_true in O. auto.
  - intros H. destruct (IH (S i) H) as (k & o' & Hk & Ho & Hs).
    exists (S k), o'. replace (i + S k)%nat with (S i + k)%nat by lia. auto.
Qed.

Lemma firstOwned_None i id ws (os : list state) :
  firstOwned i id ws os = None ->
  forall k o, nth_error os k = Some o -> ownerOf (i + k) ws <> Some id.
Proof.
  revert i. induction os as [|o os IH]; intros i H [|k] o' Hk; cbn in *;
    try discriminate.
  - rewrite Nat.add_0_r. destruct (ownedBy id i ws) eqn:O; [discriminate|].
    intros E. apply ownedBy_true in E. congruence.
  - destruct (ownedBy id i ws); [discriminate|].
    replace (i + S k)%nat with (S i + k)%nat by lia. exact (IH (S i) H k o' Hk).
Qed.

(** *** Sensor objects *)

Lemma objectInvariant_of_sensor (s : state) : sensorInvariant s -> objectInvariant s.
Proof.
  intros (W & R & S1 & S2 & L & _). repeat split; try assumption; try apply W.
  rewrite L. destruct (unconfigured s); lia.
Qed.

Lemma objectInvariant_withShared (st : stored) (s : state) :
  objectInvariant s -> objectInvariant (withShared st s).
Proof. destruct s; exact (fun H => H). Qed.

Lemma objectInvariant_setBinaryState (b : bool) (s : state) :
  objectInvariant s -> objectInvariant (setBinaryState b s).
Proof. destruct s; exact (fun H => H). Qed.

Lemma objectInvariant_storagePut (k : setting) (s : state) :
  objectInvariant s -> objectInvariant (storagePut k s).
Proof. destruct s, k; exact (fun H => H). Qed.

Lemma objectInvariant_clearTimeout (h : nat) (s : state) :
  objectInvariant s -> objectInvariant (clearTimeout (Some h) s).
Proof.
  intros (W & R & S1 & S2 & L).
  split; [apply (wf_clearTimeout (Some h)), W|].
  destruct s as [c nt ts nl ls co d m pl st en bs].
  unfold rolesKept, startTimers, endTimers in *; cbn in *.
  repeat split.
  - rewrite Forall_forall in *. intros t Ht. apply filter_In in Ht. apply R, Ht.
  - etransitivity; [apply filter_filter_length|exact S1].
  - etransitivity; [apply filter_filter_length|exact S2].
  - exact L.
Qed.

Lemma objectInvariant_setupSensor (s : state) :
  wf s -> objectInvariant (snd (setupSensor s)).
Proof. intros W. apply objectInvariant_of_sensor, invariant_setupSensor, W. Qed.

Lemma objectInvariant_fold_setup (ls : list nat) (s : state) :
  objectInvariant s ->
  objectInvariant (fold_left (fun acc (_ : nat) => snd (setupSensor acc)) ls s).
Proof.
  revert s. induction ls as [|l ls IH]; intros s H; cbn; [exact H|].
  apply IH, objectInvariant_setupSensor. destruct H as (W & _). exact W.
Qed.

(** Whatever settings it sees, an object keeps [objectInvariant] through
    each of its events. *)
Lemma objectInvariant_step (e : event) (s s' : state) :
  objectInvariant s -> step e s = Some s' -> objectInvariant s'.
Proof.
  intros H. pose proof H as (W & _).
  destruct e as [dt|h|p|k]; unfold step, notifyListeners, putSetting.
  - destruct (0 <=? dt); [|discriminate]. intros [= <-]. destruct s; exact H.
  - destruct (findTimer h (timers s)) as [t|]; [|discriminate].
    destruct (due t <=? clock s); [|discriminate]. intros [= <-].
    pose proof (objectInvariant_clearTimeout h s H) as H1.
    destruct (callback t); unfold runCallback, untrigger, trigger.
    + apply objectInvariant_setBinaryState. exact H1.
    + apply objectInvariant_setupSensor, wf_setBinaryState.
      destruct H1 as (W1 & _). exact W1.
  - destruct (linkedPositionSensor s); [|discriminate]. intros [= <-].
    apply objectInvariant_fold_setup.
    exact (objectInvariant_storagePut (LinkedPositionSensor (Some (mkDevice p))) s H).
  - intros [= <-]. apply objectInvariant_setupSensor. exact (wf_storagePut k s W).
Qed.

Lemma shared_newSensor now (st : stored) :
  shared (snd (newSensor now (storedSensor st) (storedMode st) (storedBinaryState st))) = st.
Proof.
  unfold newSensor, shared.
  match goal with
  | |- context [setupSensor ?x] =>
    destruct (setupSensor_frame x) as (_ & -> & -> & -> & _)
  end.
  destruct st; reflexivity.
Qed.

(** *** The plugin *)

Lemma storageFor_consistent (id : string) (st : stored) (p : plugin) :
  siblingsAgree p -> consistent (storageFor id st p) id p.
Proof.
  intros A r s Hs Ho. unfold storageFor.
  destruct (firstOwned 0 id (owners p) (objects p)) as [x|] eqn:F.
  - apply firstOwned_Some in F. destruct F as (k & o & Hk & Hok & <-).
    exact (A r k s o id Hs Hk Ho Hok).
  - destruct (firstOwned_None _ _ _ _ F r s Hs Ho).
Qed.

Lemma invariant_getDevice now st id p :
  pluginInvariant p -> consistent st id p ->
  pluginInvariant (snd (getDevice now st id p)).
Proof.
  intros (Hk & Hr & Hb & Ho & Ha & Hw) C. unfold getDevice.
  destruct (mapGet id (devices p)) as [r|] eqn:E; cbn [snd].
  - repeat split; assumption.
  - pose proof (invariant_newSensor now (storedSensor st) (storedMode st)
                  (storedBinaryState st)) as Hn.
    apply objectInvariant_of_sensor in Hn.
    pose proof (shared_newSensor now st) as Hsh.
    rewrite Forall_forall in Hb.
    assert (Ho' : forall dv, objectInvariant dv -> Forall objectInvariant (objects p ++ [dv])).
    { intros dv Hdv. apply Forall_app. split; [exact Ho|].
      apply Forall_cons; [exact Hdv|apply Forall_nil]. }
    assert (Ha' : forall dv dm ds,
               shared dv = st ->
               siblingsAgree (mkPlugin (objects p ++ [dv]) dm ds
                                ((List.length (objects p), id) :: owners p))).
    { intros dv dm ds Hdv r1 r2 s1 s2 i. unfold sensorAt. cbn [objects owners ownerOf].
      intros H1 H2.
      assert (X : forall r s, nth_error (objects p ++ [dv]) r = Some s ->
                  (r < List.length (objects p))%nat /\ nth_error (objects p) r = Some s \/
                  r = List.length (objects p) /\ s = dv).
      { intros r s H.
        destruct (Nat.lt_ge_cases r (List.length (objects p))) as [L|L].
        - left. split; [exact L|]. rewrite nth_error_app_old in H by exact L. exact H.
        - right. assert (r < List.length (objects p ++ [dv]))%nat
            by (apply nth_error_Some; congruence).
          rewrite length_app in *. cbn in *.
          assert (r = List.length (objects p)) by lia. subst r.
          rewrite nth_error_app_last in H. split; congruence. }
      destruct (X r1 s1 H1) as [(L1 & N1)|(-> & ->)];
        destruct (X r2 s2 H2) as [(L2 & N2)|(-> & ->)].
      - destruct (Nat.eqb_spec (List.length (objects p)) r1); [lia|].
        destruct (Nat.eqb_spec (List.length (objects p)) r2); [lia|].
        intros O1 O2. exact (Ha r1 r2 s1 s2 i N1 N2 O1 O2).
      - destruct (Nat.eqb_spec (List.length (objects p)) r1); [lia|].
        rewrite Nat.eqb_refl. intros O1 [= <-]. rewrite Hdv. exact (C r1 s1 N1 O1).
      - destruct (Nat.eqb_spec (List.length (objects p)) r2); [lia|].
        rewrite Nat.eqb_refl. intros [= <-] O2. rewrite Hdv. symmetry.
        exact (C r2 s2 N2 O2).
      - reflexivity. }
    assert (Hw' : forall k r, mapGet k (devices p) = Some r ->
                   ownerOf r ((List.length (objects p), id) :: owners p) = Some k).
    { intros k r Hkr. cbn [ownerOf]. pose proof (Hw k r Hkr) as O.
      apply mapGet_In in Hkr. apply Hb in Hkr. cbn in Hkr.
      destruct (Nat.eqb_spec (List.length (objects p)) r); [lia|exact O]. }
    destruct (newSensor now _ _ _) as [[|] dv]; cbn [snd] in *;
      unfold pluginInvariant; cbn [devices objects owners];
      rewrite length_app; cbn [List.length].
    + rewrite (mapSet_absent id _ _ E), !map_app. cbn [map fst snd].
      repeat split.
      * apply NoDup_app; [exact Hk|repeat constructor; tauto|].
        intros k Hin [<-|[]]. exact (mapGet_None_notIn _ _ E Hin).
      * apply NoDup_app; [exact Hr|repeat constructor; tauto|].
        intros r Hin [<-|[]]. apply in_map_iff in Hin. destruct Hin as (kv & Er & Hkv).
        apply Hb in Hkv. lia.
      * apply Forall_app. split.
        -- apply Forall_forall. intros kv Hkv. apply Hb in Hkv. lia.
        -- repeat constructor. cbn. lia.
      * apply Ho', Hn.
      * apply Ha', Hsh.
      * intros k r. rewrite <- (mapSet_absent id (List.length (objects p)) _ E).
        destruct (String.eqb_spec k id) as [->|N].
        -- rewrite mapGet_mapSet_same. intros [= <-]. cbn [ownerOf].
           rewrite Nat.eqb_refl. reflexivity.
        -- rewrite mapGet_mapSet_other by exact N. apply Hw'.
    + repeat split; try assumption.
      * apply Forall_forall. intros kv Hkv. apply Hb in Hkv. lia.
      * apply Ho', Hn.
      * apply Ha', Hsh.
Qed.

Lemma invariant_releaseDevice id nid p :
  pluginInvariant p -> pluginInvariant (releaseDevice id nid p).
Proof.
  intros (Hk & Hr & Hb & Ho & Ha & Hw). unfold pluginInvariant, releaseDevice.
  cbn [devices objects owners].
  repeat split.
  - apply mapDelete_NoDup, Hk.
  - apply mapDelete_NoDup, Hr.
  - rewrite Forall_forall in *. intros kv Hkv. apply Hb. eapply mapDelete_incl, Hkv.
  - exact Ho.
  - exact Ha.
  - intros k r. destruct (String.eqb_spec k nid) as [->|N].
    + rewrite mapGet_mapDelete_same by exact Hk. discriminate.
    + rewrite mapGet_mapDelete_other by exact N. apply Hw.
Qed.

Lemma invariant_createDevice now st uuid n p :
  pluginInvariant p -> consistent st uuid p ->
  pluginInvariant (snd (createDevice now st uuid n p)).
Proof.
  intros H C. unfold createDevice.
  match goal with
  | |- context [getDevice now st uuid ?q] =>
    pose proof (invariant_getDevice now st uuid q H C) as H';
    destruct (getDevice now st uuid q) as [[r|] q']
  end; exact H'.
Qed.

Lemma invariant_sensorEvent (r : nat) (s s' : state) (p : plugin) :
  pluginInvariant p -> nth_error (objects p) r = Some s -> objectInvariant s' ->
  pluginInvariant (mkPlugin (afterEvent r s' p) (devices p) (discovered p) (owners p)).
Proof.
  intros (Hk & Hr & Hb & Ho & Ha & Hw) N I'.
  assert (L : List.length (afterEvent r s' p) = List.length (objects p)).
  { unfold afterEvent. destruct (ownerOf r (owners p));
      rewrite ?shareFrom_length, setObject_length; reflexivity. }
  unfold pluginInvariant. cbn [devices objects owners]. rewrite L.
  repeat split; try assumption.
  - unfold afterEvent. destruct (ownerOf r (owners p)).
    + apply shareFrom_Forall; [intros o; apply objectInvariant_withShared|].
      apply setObject_Forall; assumption.
    + apply setObject_Forall; assumption.
  - intros r1 r2 s1 s2 i. unfold sensorAt, afterEvent. cbn [objects owners].
    destruct (ownerOf r (owners p)) as [id|] eqn:Or.
    + rewrite !nth_error_shareFrom. cbn [Nat.add].
      destruct (nth_error (setObject r s' (objects p)) r1) as [o1|] eqn:N1;
        [|discriminate].
      destruct (nth_error (setObject r s' (objects p)) r2) as [o2|] eqn:N2;
        [|discriminate].
      intros [= <-] [= <-] O1 O2.
      destruct (String.eqb_spec i id) as [->|Ne].
      * apply ownedBy_true in O1, O2. rewrite O1, O2.
        rewrite !shared_withShared. reflexivity.
      * assert (F : forall k, ownerOf k (owners p) = Some i -> ownedBy id k (owners p) = false).
        { intros k Hk'. destruct (ownedBy id k (owners p)) eqn:Q; [|reflexivity].
          apply ownedBy_true in Q. congruence. }
        rewrite (F r1 O1), (F r2 O2).
        assert (r1 <> r) by congruence. assert (r2 <> r) by congruence.
        rewrite nth_error_setObject_other in N1, N2 by assumption.
        exact (Ha r1 r2 o1 o2 i N1 N2 O1 O2).
    + intros N1 N2 O1 O2.
      assert (r1 <> r) by congruence. assert (r2 <> r) by congruence.
      rewrite nth_error_setObject_other in N1, N2 by assumption.
      exact (Ha r1 r2 s1 s2 i N1 N2 O1 O2).
Qed.

Lemma invariant_pluginStep (e : pluginEvent) (p p' : plugin) :
  pluginInvariant p -> pluginStep e p = Some p' -> pluginInvariant p'.
Proof.
  intros H. pose proof H as (_ & _ & _ & Ho & Ha & _).
  destruct e as [now st id|id nid|now st uuid n|r e]; cbn.
  - intros [= <-]. apply invariant_getDevice; [exact H|].
    apply storageFor_consistent, Ha.
  - intros [= <-]. apply invariant_releaseDevice, H.
  - intros [= <-]. apply invariant_createDevice; [exact H|].
    apply storageFor_consistent, Ha.
  - destruct (nth_error (objects p) r) as [s|] eqn:E; [|discriminate].
    destruct (step e s) as [s'|] eqn:S; [|discriminate]. intros [= <-].
    apply (invariant_sensorEvent r s s' p H E).
    apply (objectInvariant_step e s s'); [|exact S].
    rewrite Forall_forall in Ho. apply Ho. eapply nth_error_In, E.
Qed.

Lemma invariant_pluginRun (es : list pluginEvent) (p p' : plugin) :
  pluginInvariant p -> pluginRun es p = Some p' -> pluginInvariant p'.
Proof.
  revert p. induction es as [|e es IH]; intros p H; cbn.
  - intros [= <-]. exact H.
  - destruct (pluginStep e p) as [p1|] eqn:E; [|discriminate].
    apply IH. eapply invariant_pluginStep; eassumption.
Qed.

Lemma pluginReachable_invariant (p : plugin) :
  pluginReachable p -> pluginInvariant p.
Proof.
  intros (es & H). eapply invariant_pluginRun; [|exact H].
  repeat split; try constructor.
  - intros r r' s s' id Hs. unfold sensorAt in Hs. destruct r; discriminate.
  - intros id r. discriminate.
Qed.

(** However the plugin's methods are called and whatever happens to its
    sensors, every native id in the map names a sensor that exists and was
    constructed with that id, and no two native ids share a sensor.  The
    sensors constructed with one native id - the one in the map and those
    left behind by [releaseDevice] or by a rejected [getDevice] - always see
    the same two settings and the same binary state.  Every sensor ever
    constructed keeps, whatever its siblings write, a well-formed host
    state with at most one start timer, at most one end timer, each held by
    its handle field, and at most one listener. *)
Theorem running_plugin_invariant (p : plugin) :
  pluginReachable p ->
  (forall id r,
     mapGet id (devices p) = Some r ->
     (exists s, sensorAt r p = Some s) /\ ownerOf r (owners p) = Some id) /\
  (forall id id' r,
     mapGet id (devices p) = Some r -> mapGet id' (devices p) = Some r -> id = id') /\
  (forall r r' s s' id,
     sensorAt r p = Some s -> sensorAt r' p = Some s' ->
     ownerOf r (owners p) = Some id -> ownerOf r' (owners p) = Some id ->
     linkedPositionSensor s = linkedPositionSensor s' /\
     mode s = mode s' /\ binaryState s = binaryState s') /\
  (forall r s,
     sensorAt r p = Some s ->
     wf s /\ rolesKept s /\
     (List.length (startTimers s) <= 1)%nat /\
     (List.length (endTimers s) <= 1)%nat /\
     (List.length (listeners s) <= 1)%nat).
Proof.
  intros R. destruct (pluginReachable_invariant p R) as (Hk & Hr & Hb & Ho & Ha & Hw).
  rewrite Forall_forall in Hb, Ho. split; [|split; [|split]].
  - intros id r E. split; [|exact (Hw id r E)].
    apply mapGet_In in E. apply Hb in E. cbn in E.
    unfold sensorAt. destruct (nth_error (objects p) r) as [s|] eqn:N; [eauto|].
    apply nth_error_None in N. lia.
  - intros id id' r E E'. apply mapGet_In in E. apply mapGet_In in E'.
    exact (NoDup_snd_injective _ _ _ _ Hr E E').
  - intros r r' s s' id Hs Hs' O O'.
    pose proof (Ha r r' s s' id Hs Hs' O O') as E. unfold shared in E.
    injection E as E1 E2 E3. auto.
  - intros r s E. apply Ho. eapply nth_error_In, E.
Qed.

(** ** [releaseDevice] *)

(** [releaseDevice] only forgets the map entry: it never calls [release] on
    the sensor, so the sensor object stays as it was, with its timers pending
    and its listener registered, and the other native ids are unaffected.
    When the same native id is asked for again, a second sensor is
    constructed beside the first, which is still armed. *)
Theorem releaseDevice_leaves_sensor_armed (id nid : string) (p : plugin) (r0 : nat) :
  pluginReachable p -> mapGet nid (devices p) = Some r0 ->
  let p1 := releaseDevice id nid p in
  mapGet nid (devices p1) = None /\
  (forall k, k <> nid -> mapGet k (devices p1) = mapGet k (devices p)) /\
  objects p1 = objects p /\
  (forall now st,
     let p2 := snd (getDevice now st nid p1) in
     objects p2 =
       objects p ++ [snd (newSensor now (storedSensor st) (storedMode st)
                            (storedBinaryState st))] /\
     sensorAt r0 p2 = sensorAt r0 p /\
     (forall r1, fst (getDevice now st nid p1) = Some r1 -> r1 <> r0)).
Proof.
  intros R E p1. destruct (pluginReachable_invariant p R) as (Hk & _ & Hb & _).
  assert (E1 : mapGet nid (devices p1) = None)
    by (apply mapGet_mapDelete_same, Hk).
  assert (B : (r0 < List.length (objects p))%nat).
  { rewrite Forall_forall in Hb. apply mapGet_In in E. apply Hb in E. exact E. }
  split; [exact E1|]. split; [|split; [reflexivity|]].
  - intros k N. apply mapGet_mapDelete_other, N.
  - intros now st p2. unfold p2, getDevice. rewrite E1.
    destruct (newSensor now _ _ _) as [[|] dv];
      cbn [fst snd objects]; change (objects p1) with (objects p);
      unfold sensorAt; cbn [objects].
    + split; [reflexivity|]. split; [apply nth_error_app_old, B|].
      intros r1 [= <-]. lia.
    + split; [reflexivity|]. split; [apply nth_error_app_old, B|]. discriminate.
Qed.

(** ** [createDevice] *)

Lemma deviceName_truthy (n : option string) : truthy (Some (deviceName n)) = true.
Proof. destruct n as [[|a r]|]; reflexivity. Qed.

(** [createDevice] announces one device under the uuid that the host gave
    it, as a sensor with the interfaces BinarySensor and Settings, under the
    name from the settings or, when that is missing or empty, under the
    default name, so never under an empty name.  When it returns, it returns
    that uuid and the sensor is in the map, so that a later [getDevice] for
    the uuid constructs nothing.  When the constructor of the sensor throws,
    the device has been announced all the same and the uuid is not in the
    map. *)
Theorem createDevice_announces_and_registers (now : Z) (st : stored) (uuid : string)
    (n : option string) (p : plugin) :
  let p' := snd (createDevice now st uuid n p) in
  discovered p' =
    discovered p ++ [mkDiscovered uuid (deviceName n) [BinarySensor; Settings] Sensor] /\
  truthy (Some (deviceName n)) = true /\
  (truthy n = true -> Some (deviceName n) = n) /\
  (truthy n = false -> deviceName n = "New Sunrise-Sunset Sensor"%string) /\
  match fst (createDevice now st uuid n p) with
  | Some u =>
    u = uuid /\
    exists r,
      mapGet uuid (devices p') = Some r /\
      forall now' st', getDevice now' st' uuid p' = (Some r, p')
  | None => mapGet uuid (devices p') = None
  end.
Proof.
  intros p'. unfold p', createDevice.
  set (q := mkPlugin (objects p) (devices p)
              (discovered p ++ [mkDiscovered uuid (deviceName n) [BinarySensor; Settings] Sensor])
              (owners p)).
  assert (D : discovered (snd (getDevice now st uuid q)) = discovered q).
  { unfold getDevice. destruct (mapGet uuid (devices q)); [reflexivity|].
    destruct (newSensor now _ _ _) as [[|] dv]; reflexivity. }
  assert (G : match fst (getDevice now st uuid q) with
              | Some r => mapGet uuid (devices (snd (getDevice now st uuid q))) = Some r
              | None => mapGet uuid (devices (snd (getDevice now st uuid q))) = None
              end).
  { unfold getDevice. destruct (mapGet uuid (devices q)) as [r|] eqn:E; cbn [fst snd].
    - exact E.
    - destruct (newSensor now _ _ _) as [[|] dv]; cbn [fst snd devices].
      + apply mapGet_mapSet_same.
      + exact E. }
  destruct (getDevice now st uuid q) as [[r0|] q'] eqn:Q; cbn [fst snd] in *.
  - split; [exact D|]. split; [apply deviceName_truthy|].
    split; [destruct n as [[|a r]|]; cbn; intros; try discriminate; reflexivity|].
    split; [destruct n as [[|a r]|]; cbn; intros; try discriminate; reflexivity|].
    split; [reflexivity|]. exists r0. split; [exact G|].
    intros now' st'. unfold getDevice. rewrite G. reflexivity.
  - split; [exact D|]. split; [apply deviceName_truthy|].
    split; [destruct n as [[|a r]|]; cbn; intros; try discriminate; reflexivity|].
    split; [destruct n as [[|a r]|]; cbn; intros; try discriminate; reflexivity|].
    exact G.
Qed.

(** ** A sensor whose construction failed *)

(** The sensor left behind by a rejected [getDevice] is outside the map but
    not idle: as soon as the linked device reports a position, its listener
    runs [setupSensor], which now succeeds and arms the future instants of
    the first day that has any - while the native id is still not in the
    map.  The other sensors constructed with that native id see the new
    position; nothing else changes. *)
Theorem rejected_sensor_arms_on_position_report (now : Z) (st : stored) (id : string)
    (p : plugin) dev m (pos : position) :
  mapGet id (devices p) = None ->
  storedSensor st = Some dev -> devicePosition dev = None ->
  storedMode st = Some m -> truthy (Some m) = true ->
  let p' := snd (getDevice now st id p) in
  let r := List.length (objects p) in
  let d0 := localMidnight now in
  exists s',
    pluginStep (SensorEvent r (PositionChanged (Some pos))) p' =
      Some (mkPlugin
              (shareFrom 0 id (shared s') (owners p') (setObject r s' (objects p')))
              (devices p) (discovered p) (owners p')) /\
    sensorAt r
      (mkPlugin
         (shareFrom 0 id (shared s') (owners p') (setObject r s' (objects p')))
         (devices p) (discovered p) (owners p')) = Some s' /\
    schedule s' =
      firstFuturePair m now
        (getTimes d0 (latitude pos) (longitude pos))
        (getTimes (nextDay d0) (latitude pos) (longitude pos))
        (getTimes (nextDay (nextDay d0)) (latitude pos) (longitude pos)).
Proof.
  intros E Hd Hp Hm Ht p' r d0.
  set (s0 := subscribed (release
               (mkState now 0 [] 0 [] [] (storedSensor st) (storedMode st)
                        None None None (storedBinaryState st)))).
  assert (B : newSensor now (storedSensor st) (storedMode st) (storedBinaryState st) =
              (Throw, s0)).
  { unfold newSensor. apply (setupSensor_noPosition _ dev m); assumption. }
  assert (P : p' = mkPlugin (objects p ++ [s0]) (devices p) (discovered p)
                            ((r, id) :: owners p)).
  { unfold p', getDevice. rewrite E, B. reflexivity. }
  assert (W : wf (moved (Some pos) s0)) by (repeat split; repeat constructor).
  set (s' := snd (setupSensor (moved (Some pos) s0))).
  assert (N : nth_error (objects p ++ [s0]) r = Some s0)
    by (apply nth_error_app_last).
  exists s'. split; [|split].
  - rewrite P. unfold pluginStep, afterEvent. cbn [objects devices discovered owners].
    rewrite N. cbn [ownerOf]. rewrite Nat.eqb_refl.
    unfold step. replace (linkedPositionSensor s0) with (storedSensor st) by reflexivity.
    rewrite Hd. reflexivity.
  - rewrite P. unfold sensorAt. cbn [objects owners].
    rewrite nth_error_shareFrom, (nth_error_setObject_same r s' s0 _ N).
    unfold ownedBy. cbn [Nat.add ownerOf]. rewrite Nat.eqb_refl, String.eqb_refl.
    rewrite withShared_shared. reflexivity.
  - unfold s'.
    rewrite (setupSensor_schedule (moved (Some pos) s0) (mkDevice (Some pos)) pos m W);
      try reflexivity; assumption.
Qed.

End Sensor.

(** * Runs on the sample tables *)

(** A linked device at 47.6 N, 122.3 W (in thousandths of a degree), and a
    sensor as the constructor finds it at instant [now] with the stored
    mode [m]. *)
Abbreviation seattle := (Some (mkDevice Z (Some (mkPosition Z 47600 (-122300))))).
Abbreviation created now m :=
  (mkState Z now 0 [] 0 [] [] seattle m None None None None).
Abbreviation equinoxSetup := (setupSensor Z Z utcMidnight utcNextDay equinoxTimes).
Abbreviation polarSetup := (setupSensor Z Z utcMidnight utcNextDay polarTimes).
(** A sunrise sensor set up just after midnight and looked at again at
    08:20, when both of its timers are due and neither has been run. *)
Abbreviation overdue :=
  (advance Z 30000000 (snd (equinoxSetup (created 1000 (Some "sunrise"%string))))).

(** C1.  Mode "sunset" on the second day of the polar sample: the sunsets of
    that day and of the next are Invalid Dates, the third day of the window
    has a sunrise at 300600000 and a sunset from 303600000 to 304200000.
    [setupSensor] arms the start timer at the sunrise and the end timer at
    the end of the sunrise, not at the two sunset instants. *)
Theorem sunset_third_day_arms_sunrise_pair :
  let now := 86401000 in
  let t2 := polarTimes (utcNextDay (utcNextDay (utcMidnight now))) 47600 (-122300) in
  (sunrise t2 = Some 300600000 /\ sunriseEnd t2 = Some 301200000 /\
   sunsetStart t2 = Some 303600000 /\ sunset t2 = Some 304200000) /\
  schedule Z (snd (polarSetup (created now (Some "sunset"%string)))) =
  [(300600000, Trigger); (301200000, Untrigger)].
Proof. vm_compute. repeat split. Qed.

(** C5 as stated fails: the stored mode "noon" is neither "sunrise" nor
    "sunset", yet [setupSensor] subscribes to the position sensor and arms
    the sunset timers of the day. *)
Lemma unknown_mode_arms_sunset_timers :
  let s := snd (equinoxSetup (created 1000 (Some "noon"%string))) in
  (String.eqb "noon" "sunrise" = false /\ String.eqb "noon" "sunset" = false) /\
  schedule Z s = [(64620000, Trigger); (64800000, Untrigger)] /\
  listeners Z s = [0%nat].
Proof. vm_compute. repeat split. Qed.

Lemma armed_instants_strictly_future_witness :
  wf Z overdue /\
  Forall (fun t => clock Z overdue < fire t /\ clock Z overdue < due t)
         (timers Z (snd (equinoxSetup overdue))).
Proof.
  assert (W : wf Z overdue) by wf_concrete.
  split; [exact W|].
  exact (proj2 (proj2 (proj2 (proj2
           (armed_instants_strictly_future Z Z utcMidnight utcNextDay equinoxTimes))))
           overdue W).
Defined.

(** At 23:00 of the first day in mode "sunrise", today's pair has elapsed
    and tomorrow's is armed, whatever the day after holds. *)
Lemma window_stops_at_first_yielding_day_witness :
  let s := subscribed Z (release Z (created 82800000 (Some "sunrise"%string))) in
  armWindow Z "sunrise" (equinoxTimes 0 47600 (-122300))
            (equinoxTimes msPerDay 47600 (-122300))
            (polarTimes 0 47600 (-122300)) s =
  attempt Z "sunrise" 1 (equinoxTimes msPerDay 47600 (-122300)) s.
Proof.
  cbv zeta.
  apply (proj1 (proj2 (proj2 (proj2
           (window_stops_at_first_yielding_day Z Z utcMidnight utcNextDay equinoxTimes))
           "sunrise"%string (equinoxTimes 0 47600 (-122300))
           (equinoxTimes msPerDay 47600 (-122300))
           (polarTimes 0 47600 (-122300))
           (subscribed Z (release Z (created 82800000 (Some "sunrise"%string))))))).
  - reflexivity.
  - reflexivity.
Defined.



Lemma superseded_timers_never_fire_witness :
  wf Z overdue /\
  timers Z overdue =
    [mkTimer 0 21600000 21600000 Trigger; mkTimer 1 21780000 21780000 Untrigger] /\
  disarmed Z (release Z overdue) /\
  run Z Z utcMidnight utcNextDay equinoxTimes [TimerDue Z 1] (release Z overdue) = None.
Proof.
  assert (W : wf Z overdue) by wf_concrete.
  split; [exact W|]. split; [reflexivity|].
  split; [|reflexivity].
  exact (proj1 (superseded_timers_never_fire Z Z utcMidnight utcNextDay equinoxTimes
                  overdue W)).
Defined.

(** The end timer (handle 1) of [overdue] fires: the timer counter moves from
    2 to 4, and the timer was an end timer. *)
Lemma end_handler_rearms_witness :
  let s' := snd (untrigger Z Z utcMidnight utcNextDay equinoxTimes
                   (clearTimeout Z (Some 1%nat) overdue)) in
  step Z Z utcMidnight utcNextDay equinoxTimes (TimerDue Z 1) overdue = Some s' /\
  (nextTimer Z overdue = 2 /\ nextTimer Z s' = 4)%nat /\
  exists t, findTimer 1 (timers Z overdue) = Some t /\ callback t = Untrigger.
Proof.
  cbv zeta.
  assert (E : step Z Z utcMidnight utcNextDay equinoxTimes (TimerDue Z 1) overdue =
              Some (snd (untrigger Z Z utcMidnight utcNextDay equinoxTimes
                           (clearTimeout Z (Some 1%nat) overdue))))
    by (vm_compute; reflexivity).
  split; [exact E|]. split; [vm_compute; split; reflexivity|].
  destruct (proj2 (proj2 (end_handler_rearms Z Z utcMidnight utcNextDay equinoxTimes))
              (TimerDue Z 1) overdue _ E ltac:(vm_compute; lia))
    as (t & F & C & _).
  exists t. split; assumption.
Defined.

Lemma setupSensor_twice_same_schedule_witness :
  wf Z overdue /\
  schedule Z (snd (equinoxSetup (snd (equinoxSetup overdue)))) =
  schedule Z (snd (equinoxSetup overdue)).
Proof.
  assert (W : wf Z overdue) by wf_concrete.
  split; [exact W|].
  exact (proj1 (setupSensor_twice_same_schedule Z Z utcMidnight utcNextDay equinoxTimes
                  overdue W)).
Defined.

(** Just after midnight on the first day of the polar sample, none of the
    three days has a valid instant. *)
Lemma exhausted_window_stays_disarmed_witness :
  let s := created 1000 (Some "sunrise"%string) in
  wf Z s /\
  polarSetup s = (Normal, subscribed Z (release Z s)) /\
  timers Z (snd (polarSetup s)) = [].
Proof.
  cbv zeta.
  assert (W : wf Z (created 1000 (Some "sunrise"%string))) by wf_concrete.
  split; [exact W|].
  pose proof (exhausted_window_stays_disarmed Z Z utcMidnight utcNextDay polarTimes
                (created 1000 (Some "sunrise"%string))
                (mkDevice Z (Some (mkPosition Z 47600 (-122300))))
                (mkPosition Z 47600 (-122300)) "sunrise"%string
                W eq_refl eq_refl eq_refl eq_refl eq_refl eq_refl eq_refl) as H.
  cbv zeta in H. split; [exact (proj1 H) | exact (proj1 (proj2 H))].
Defined.

(** A sensor created with no mode stored. *)
Lemma incomplete_configuration_is_quiescent_witness :
  let s := created 1000 None in
  wf Z s /\ unconfigured Z s = true /\ disarmed Z (snd (equinoxSetup s)).
Proof.
  cbv zeta.
  assert (W : wf Z (created 1000 None)) by wf_concrete.
  split; [exact W|]. split; [reflexivity|].
  exact (proj1 (proj2
           (proj1 (incomplete_configuration_is_quiescent Z Z utcMidnight utcNextDay
                     equinoxTimes)
                  (created 1000 None) W eq_refl))).
Defined.

(** * Runs of the further properties on the sample tables *)

(** What the host has stored for a sunrise sensor linked to [seattle]. *)
Abbreviation sunriseStored := (mkStored Z seattle (Some "sunrise"%string) None).
Abbreviation equinoxGetDevice := (getDevice Z Z utcMidnight utcNextDay equinoxTimes).
Abbreviation equinoxReachable := (reachable Z Z utcMidnight utcNextDay equinoxTimes).
Abbreviation equinoxStep := (step Z Z utcMidnight utcNextDay equinoxTimes).

(** A sensor linked to a device that has not reported a position. *)
Lemma missing_position_throws_subscribed_witness :
  let s := mkState Z 1000 0 [] 0 [] [] (Some (mkDevice Z None))
             (Some "sunrise"%string) None None None None in
  wf Z s /\
  fst (equinoxSetup s) = Throw /\
  listeners Z (snd (equinoxSetup s)) = [0%nat].
Proof.
  cbv zeta.
  assert (W : wf Z (mkState Z 1000 0 [] 0 [] [] (Some (mkDevice Z None))
                      (Some "sunrise"%string) None None None None)) by wf_concrete.
  split; [exact W|].
  pose proof (missing_position_throws_subscribed Z Z utcMidnight utcNextDay equinoxTimes
                _ (mkDevice Z None) "sunrise"%string W eq_refl eq_refl eq_refl eq_refl)
    as H.
  cbv zeta in H. split; [exact (proj1 H)|exact (proj1 (proj2 (proj2 (proj2 H))))].
Defined.




(** The start timer (handle 0) of [overdue] is run. *)
Lemma binaryState_written_only_by_timers_witness :
  let s' := trigger Z (clearTimeout Z (Some 0%nat) overdue) in
  equinoxStep (TimerDue Z 0) overdue = Some s' /\
  exists t,
    findTimer 0 (timers Z overdue) = Some t /\ due t <= clock Z overdue /\
    binaryState Z s' = Some (isTrigger t).
Proof.
  cbv zeta.
  assert (E : equinoxStep (TimerDue Z 0) overdue =
              Some (trigger Z (clearTimeout Z (Some 0%nat) overdue)))
    by (vm_compute; reflexivity).
  split; [exact E|].
  exact (binaryState_written_only_by_timers Z Z utcMidnight utcNextDay equinoxTimes
           (TimerDue Z 0) overdue _ E).
Defined.

(** At 08:20 of the first day, mode "sunrise": tomorrow's pair. *)
Lemma setupSensor_arms_first_future_pair_witness :
  wf Z overdue /\
  schedule Z (snd (equinoxSetup overdue)) =
  firstFuturePair "sunrise" 30001000
    (equinoxTimes 0 47600 (-122300))
    (equinoxTimes msPerDay 47600 (-122300))
    (equinoxTimes (2 * msPerDay) 47600 (-122300)).
Proof.
  assert (W : wf Z overdue) by wf_concrete.
  split; [exact W|].
  exact (setupSensor_arms_first_future_pair Z Z utcMidnight utcNextDay equinoxTimes
           overdue (mkDevice Z (Some (mkPosition Z 47600 (-122300))))
           (mkPosition Z 47600 (-122300)) "sunrise"%string W
           ltac:(vm_compute; reflexivity) eq_refl
           ltac:(vm_compute; reflexivity) eq_refl).
Defined.


Lemma getDevice_constructs_when_absent_witness :
  mapGet "a" (devices Z (newPlugin Z)) = None /\
  fst (newSensor Z Z utcMidnight utcNextDay equinoxTimes 1000 seattle
         (Some "sunrise"%string) None) = Normal /\
  fst (equinoxGetDevice 1000 sunriseStored "a"%string (newPlugin Z)) = Some 0%nat /\
  mapGet "a"
    (devices Z (snd (equinoxGetDevice 1000 sunriseStored "a"%string (newPlugin Z)))) =
  Some 0%nat.
Proof.
  split; [reflexivity|].
  assert (N : fst (newSensor Z Z utcMidnight utcNextDay equinoxTimes 1000 seattle
                     (Some "sunrise"%string) None) = Normal) by (vm_compute; reflexivity).
  split; [exact N|].
  pose proof (getDevice_constructs_when_absent Z Z utcMidnight utcNextDay equinoxTimes
                1000 sunriseStored "a"%string (newPlugin Z) eq_refl) as H.
  cbv zeta in H. exact (proj2 (proj2 (proj2 (proj2 (proj2 H)))) N).
Defined.

Lemma getDevice_is_cached_witness :
  fst (equinoxGetDevice 1000 sunriseStored "a"%string (newPlugin Z)) = Some 0%nat /\
  equinoxGetDevice 3601000 (mkStored Z None None None) "a"%string
    (snd (equinoxGetDevice 1000 sunriseStored "a"%string (newPlugin Z))) =
  (Some 0%nat, snd (equinoxGetDevice 1000 sunriseStored "a"%string (newPlugin Z))).
Proof.
  assert (E : fst (equinoxGetDevice 1000 sunriseStored "a"%string (newPlugin Z)) =
              Some 0%nat) by (vm_compute; reflexivity).
  split; [exact E|].
  exact (getDevice_is_cached Z Z utcMidnight utcNextDay equinoxTimes 1000 3601000
           sunriseStored (mkStored Z None None None) "a"%string (newPlugin Z) 0%nat E).
Defined.

(** The linked device has not reported a position when the sensor is
    constructed. *)
Lemma getDevice_rejected_without_position_witness :
  let st := mkStored Z (Some (mkDevice Z None)) (Some "sunset"%string) None in
  fst (equinoxGetDevice 1000 st "a"%string (newPlugin Z)) = None /\
  devices Z (snd (equinoxGetDevice 1000 st "a"%string (newPlugin Z))) = [].
Proof.
  cbv zeta.
  pose proof (getDevice_rejected_without_position Z Z utcMidnight utcNextDay equinoxTimes
                1000 (mkStored Z (Some (mkDevice Z None)) (Some "sunset"%string) None)
                "a"%string (newPlugin Z) (mkDevice Z None) "sunset"%string
                eq_refl eq_refl eq_refl eq_refl eq_refl) as H.
  cbv zeta in H. split; [exact (proj1 H)|exact (proj1 (proj2 H))].
Defined.

(** A plugin that has constructed the sensor "a". *)
Abbreviation oneDevice := (snd (equinoxGetDevice 1000 sunriseStored "a"%string (newPlugin Z))).

Lemma oneDevice_reachable :
  pluginReachable Z Z utcMidnight utcNextDay equinoxTimes oneDevice.
Proof.
  exists [GetDevice Z 1000 sunriseStored "a"%string]. reflexivity.
Defined.

(** The sensor "a" is constructed, released, constructed again, and the mode
    is then cleared through the second object: both objects see no mode,
    and the first, which nobody released, still has its two timers. *)
Lemma running_plugin_invariant_witness :
  exists p,
    pluginRun Z Z utcMidnight utcNextDay equinoxTimes
      [GetDevice Z 1000 sunriseStored "a"%string;
       ReleaseDevice Z "id" "a";
       GetDevice Z 3601000 sunriseStored "a"%string;
       SensorEvent Z 1 (PutSetting Z (Mode Z None))] (newPlugin Z) = Some p /\
    (exists s0 s1,
       sensorAt Z 0 p = Some s0 /\ sensorAt Z 1 p = Some s1 /\
       mode Z s0 = None /\ mode Z s1 = None /\
       List.length (timers Z s0) = 2%nat /\ timers Z s1 = [] /\
       wf Z s0 /\ (List.length (listeners Z s0) <= 1)%nat).
Proof.
  eexists. split; [vm_compute; reflexivity|].
  match goal with
  | |- exists s0 s1, sensorAt Z 0 ?p = _ /\ _ =>
    assert (R : pluginReachable Z Z utcMidnight utcNextDay equinoxTimes p)
      by (exists [GetDevice Z 1000 sunriseStored "a"%string;
                  ReleaseDevice Z "id" "a";
                  GetDevice Z 3601000 sunriseStored "a"%string;
                  SensorEvent Z 1 (PutSetting Z (Mode Z None))];
          vm_compute; reflexivity);
    pose proof (proj2 (proj2 (proj2
                 (running_plugin_invariant Z Z utcMidnight utcNextDay equinoxTimes p R))))
      as H
  end.
  eexists. eexists.
  split; [reflexivity|]. split; [reflexivity|].
  split; [reflexivity|]. split; [reflexivity|].
  split; [reflexivity|]. split; [reflexivity|].
  match goal with
  | |- wf Z ?s0 /\ _ => pose proof (H 0%nat s0 eq_refl) as (W & _ & _ & _ & L)
  end.
  split; [exact W|exact L].
Defined.

(** The sensor "a" is released and asked for again one hour later. *)
Lemma releaseDevice_leaves_sensor_armed_witness :
  let p1 := releaseDevice Z "id" "a" oneDevice in
  pluginReachable Z Z utcMidnight utcNextDay equinoxTimes oneDevice /\
  mapGet "a" (devices Z oneDevice) = Some 0%nat /\
  mapGet "a" (devices Z p1) = None /\
  objects Z p1 = objects Z oneDevice /\
  sensorAt Z 0 (snd (equinoxGetDevice 3601000 sunriseStored "a"%string p1)) =
  sensorAt Z 0 oneDevice.
Proof.
  cbv zeta.
  assert (E : mapGet "a" (devices Z oneDevice) = Some 0%nat)
    by (vm_compute; reflexivity).
  pose proof (releaseDevice_leaves_sensor_armed Z Z utcMidnight utcNextDay equinoxTimes
                "id"%string "a"%string oneDevice 0%nat oneDevice_reachable E) as H.
  cbv zeta in H. destruct H as (H1 & _ & H3 & H4).
  split; [exact oneDevice_reachable|]. split; [exact E|]. split; [exact H1|].
  split; [exact H3|]. exact (proj1 (proj2 (H4 3601000 sunriseStored))).
Defined.

(** [overdue] and a sensor constructed at the same instant with the same
    settings. *)
Lemma schedule_depends_only_on_clock_and_settings_witness :
  let s' := created 30001000 (Some "sunrise"%string) in
  wf Z overdue /\ wf Z s' /\ clock Z overdue = clock Z s' /\
  schedule Z (snd (equinoxSetup overdue)) = schedule Z (snd (equinoxSetup s')).
Proof.
  cbv zeta.
  assert (W : wf Z overdue) by wf_concrete.
  assert (W' : wf Z (created 30001000 (Some "sunrise"%string))) by wf_concrete.
  assert (C : clock Z overdue = clock Z (created 30001000 (Some "sunrise"%string)))
    by (vm_compute; reflexivity).
  split; [exact W|]. split; [exact W'|]. split; [exact C|].
  exact (proj2 (schedule_depends_only_on_clock_and_settings Z Z utcMidnight utcNextDay
                  equinoxTimes overdue (created 30001000 (Some "sunrise"%string))
                  W W' C ltac:(vm_compute; reflexivity) ltac:(vm_compute; reflexivity))).
Defined.

(** A sunrise sensor constructed at 06:01:40, between the start of the
    sunrise (06:00) and its end (06:03). *)
Lemma mid_window_setup_arms_only_the_end_witness :
  let s := created 21700000 (Some "sunrise"%string) in
  wf Z s /\ 21600000 <= clock Z s < 21780000 /\
  schedule Z (snd (equinoxSetup s)) = [(21780000, Untrigger)] /\
  binaryState Z (snd (equinoxSetup s)) = binaryState Z s.
Proof.
  cbv zeta.
  assert (W : wf Z (created 21700000 (Some "sunrise"%string))) by wf_concrete.
  assert (C : 21600000 <= clock Z (created 21700000 (Some "sunrise"%string)) < 21780000)
    by (cbn; lia).
  split; [exact W|]. split; [exact C|].
  pose proof (mid_window_setup_arms_only_the_end Z Z utcMidnight utcNextDay equinoxTimes
                (created 21700000 (Some "sunrise"%string))
                (mkDevice Z (Some (mkPosition Z 47600 (-122300))))
                (mkPosition Z 47600 (-122300)) "sunrise"%string 21600000 21780000
                W eq_refl eq_refl eq_refl eq_refl ltac:(vm_compute; reflexivity) C) as H.
  cbv zeta in H.
  split; [exact (proj1 H)|exact (proj2 (proj2 (proj2 H)))].
Defined.

(** The device of a rejected sensor reports its first position. *)
Lemma rejected_sensor_arms_on_position_report_witness :
  let st := mkStored Z (Some (mkDevice Z None)) (Some "sunset"%string) None in
  let p' := snd (equinoxGetDevice 1000 st "a"%string (newPlugin Z)) in
  fst (equinoxGetDevice 1000 st "a"%string (newPlugin Z)) = None /\
  exists s',
    pluginStep Z Z utcMidnight utcNextDay equinoxTimes
      (SensorEvent Z 0 (PositionChanged Z (Some (mkPosition Z 47600 (-122300))))) p' =
      Some (mkPlugin Z
              (shareFrom Z 0 "a" (shared Z s') (owners Z p')
                 (setObject Z 0 s' (objects Z p')))
              [] [] (owners Z p')) /\
    schedule Z s' = [(64620000, Trigger); (64800000, Untrigger)].
Proof.
  cbv zeta. split; [vm_compute; reflexivity|].
  destruct (rejected_sensor_arms_on_position_report Z Z utcMidnight utcNextDay equinoxTimes
              1000 (mkStored Z (Some (mkDevice Z None)) (Some "sunset"%string) None)
              "a"%string (newPlugin Z) (mkDevice Z None) "sunset"%string
              (mkPosition Z 47600 (-122300)) eq_refl eq_refl eq_refl eq_refl eq_refl)
    as (s' & H1 & _ & H3).
  exists s'. split; [exact H1|exact H3].
Defined.
